(** * Fashion-MNIST classifier edge function: a shallow embedding

    This development embeds [superbase/functions/predict/index.ts] -- the
    edge function that receives an uploaded image and answers with a
    garment label and a confidence -- and proves properties of it.

    - JavaScript numbers are IEEE 754 binary64 values, taken from the
      Standard Library's [SpecFloat] ([prec = 53], [emax = 1024]).
    - [Math.random], [console.log] / [console.error] and the calls whose
      order matters are effects: the handler runs in a small state and
      exception monad over a [World] that holds the generator's tape, the
      position of the next draw and the trace of what happened so far.
    - [try]/[catch] is [try_catch]; an [await] is an ordinary bind. *)

From Stdlib Require Import ZArith Lia List String Ascii Bool.
From Stdlib Require Import Strings.Byte.
From Stdlib Require Import Floats.SpecFloat.
Import ListNotations.

Set Warnings "-register-all".

Local Open Scope string_scope.
Local Open Scope Z_scope.

(* ================================================================= *)
(** ** JavaScript numbers *)

Module Number.

Definition prec : Z := 53.
Definition emax : Z := 1024.

Definition number := spec_float.

(** An integer literal; exact below [2^53]. *)
Definition of_int (z : Z) : number := binary_normalize prec emax z 0 false.

Definition mul : number -> number -> number := SFmul prec emax.
Definition add : number -> number -> number := SFadd prec emax.
Definition div : number -> number -> number := SFdiv prec emax.
Definition leb : number -> number -> bool := SFleb.
Definition ltb : number -> number -> bool := SFltb.
Definition valid : number -> bool := valid_binary prec emax.

Definition zero : number := S754_zero false.
Definition one : number := Eval vm_compute in of_int 1.

(** Decimal literals of the source: the double nearest to the decimal,
    which is what the correctly rounded quotient of two exact integers
    gives. *)
Definition lit_0_7 : number := Eval vm_compute in div (of_int 7) (of_int 10).
Definition lit_0_3 : number := Eval vm_compute in div (of_int 3) (of_int 10).
Definition lit_0_5 : number := Eval vm_compute in div (of_int 1) (of_int 2).
Definition lit_100 : number := Eval vm_compute in of_int 100.

(** [Math.floor]. *)
Definition Math_floor (x : number) : number :=
  match x with
  | S754_finite s m e =>
      if 0 <=? e then x
      else
        let q := Z.pos m / 2 ^ (- e) in
        let exact := Z.pos m mod 2 ^ (- e) =? 0 in
        if s then
          binary_normalize prec emax (- (if exact then q else q + 1)) 0 true
        else binary_normalize prec emax q 0 false
  | _ => x
  end.

(** The array index a number denotes when it is used as a property key:
    a non-negative integer value, [None] for every other number. *)
Definition to_index (x : number) : option nat :=
  match x with
  | S754_zero _ => Some 0%nat
  | S754_finite false m e =>
      if 0 <=? e then Some (Z.to_nat (Z.pos m * 2 ^ e))
      else if Z.pos m mod 2 ^ (- e) =? 0
           then Some (Z.to_nat (Z.pos m / 2 ^ (- e)))
           else None
  | _ => None
  end.

(** Rounding a double to binary32 and reading it back as a double:
    what storing into a [Float32Array] does to a finite value. *)
Definition fround (x : number) : number :=
  match x with
  | S754_finite s m e =>
      match binary_round 24 128 s m e with
      | S754_finite s' m' e' => binary_round prec emax s' m' e'
      | y => y
      end
  | _ => x
  end.

(** What [Math.random] may return: a number with positive sign, at
    least [+0] and strictly below [1]. *)
Definition unit_draw (r : number) : bool :=
  valid r &&
  match r with
  | S754_zero false => true
  | S754_finite false _ _ => ltb r one
  | _ => false
  end.

End Number.

Import Number.

(* ================================================================= *)
(** ** Rounding to nearest even, as arithmetic on integers

    The operations of [SpecFloat] round through bit shifts that keep a
    round bit and a sticky bit.  The facts proved about them below are
    stated with the definitions of this module: every non-negative finite
    number is read as an integer multiple of [2^G], and rounding as a
    function [V] on such integers. *)

Module Rounding.

(** [X / 2^k] rounded to the nearest integer, ties to even. *)
Definition rne (X k : Z) : Z :=
  let q := X / 2 ^ k in
  let r := X mod 2 ^ k in
  match 2 * r ?= 2 ^ k with
  | Lt => q
  | Eq => if Z.even q then q else q + 1
  | Gt => q + 1
  end.

(** [d] is the number of binary digits of [X]. *)
Definition has_digits (X d : Z) : Prop := 0 < d /\ 2 ^ (d - 1) <= X < 2 ^ d.

(** What [k] right shifts of the mantissa [M] leave in a [shr_record]:
    the quotient, whether the remainder reaches one half (round bit),
    and whether it is neither zero nor one half (sticky bit). *)
Definition shr_inv (M k : Z) (mrs : shr_record) : Prop :=
  let rem := M - shr_m mrs * 2 ^ k in
  0 <= shr_m mrs /\ 0 <= rem < 2 ^ k /\
  (shr_r mrs = true <-> 2 ^ k <= 2 * rem) /\
  (shr_s mrs = true <-> rem <> 0 /\ 2 * rem <> 2 ^ k).

(** An exponent below every exponent met here: the smallest exponent of
    a product of two doubles is [2 * (-1074)]. *)
Definition G : Z := -2200.

(** The value of a non-negative number, in units of [2^G]. *)
Definition val (x : number) : Z :=
  match x with
  | S754_finite false m e => Z.pos m * 2 ^ (e - G)
  | _ => 0
  end.

(** [+0] or a positive finite number. *)
Definition nonneg_fin (x : number) : bool :=
  match x with
  | S754_zero false | S754_finite false _ _ => true
  | _ => false
  end.

(** The number with mantissa [N] (at most [2^53]) and exponent [fe]. *)
Definition mkfloat (N fe : Z) : number :=
  if N =? 0 then S754_zero false
  else if N =? 2 ^ 53 then S754_finite false (2 ^ 52) (fe + 1)
  else S754_finite false (Z.to_pos N) fe.

(** The number of low bits of [X] (in units of [2^G]) that a double
    cannot hold, and [X] rounded to a double. *)
Definition shift_of (X : Z) : Z := Z.max (Z.log2 X + 1 + G - 53) (-1074) - G.
Definition V (X : Z) : Z := rne X (shift_of X) * 2 ^ shift_of X.

(** The largest double below [1]. *)
Definition below_one : number := S754_finite false (2 ^ 53 - 1) (-53).

End Rounding.

Import Rounding.

(* ================================================================= *)
(** ** JavaScript values, exceptions and the world *)

Inductive value : Type :=
| VUndefined
| VNum (n : number)
| VStr (s : string)
| VArr (elems : list value)
| VObj (props : list (string * value)).

(** Property lookup and the object-literal update used by a spread
    followed by one more property. *)
Fixpoint obj_get {A : Type} (k : string) (props : list (string * A)) : option A :=
  match props with
  | [] => None
  | (k', v) :: rest => if String.eqb k k' then Some v else obj_get k rest
  end.

Fixpoint obj_set {A : Type} (k : string) (v : A) (props : list (string * A))
  : list (string * A) :=
  match props with
  | [] => [(k, v)]
  | (k', v') :: rest =>
      if String.eqb k k' then (k', v) :: rest else (k', v') :: obj_set k v rest
  end.

(** [arr[i]] for a number [i]: [undefined] outside the array. *)
Definition array_get (arr : list string) (i : number) : value :=
  match to_index i with
  | Some n => match nth_error arr n with
              | Some s => VStr s
              | None => VUndefined
              end
  | None => VUndefined
  end.

(** What can be thrown: an [Error] object with its message, or any other
    value. *)
Inductive exn : Type :=
| JsError (message : string)
| JsThrown (v : value).

Inductive Event : Type :=
| EvFormData                          (* req.formData() was awaited *)
| EvArrayBuffer                       (* imageFile.arrayBuffer() was awaited *)
| EvPreprocess                        (* preprocessImage was entered *)
| EvPredict                           (* mockPrediction was entered *)
| EvRandom (r : number)               (* Math.random() returned r *)
| EvConsoleLog (cls : value) (percent : number)
| EvConsoleError (e : exn).

Record World : Type := mkWorld {
  rand_tape : nat -> number;   (* the sequence Math.random will produce *)
  rand_pos : nat;              (* how many draws were consumed *)
  trace : list Event           (* oldest event first *)
}.

Inductive result (A : Type) : Type :=
| Ok (a : A)
| Throw (e : exn).
Arguments Ok {A} a.
Arguments Throw {A} e.

Definition M (A : Type) : Type := World -> result A * World.

Definition ret {A} (a : A) : M A := fun w => (Ok a, w).
Definition throw {A} (e : exn) : M A := fun w => (Throw e, w).
Definition bind {A B} (c : M A) (k : A -> M B) : M B :=
  fun w => match c w with
           | (Ok a, w') => k a w'
           | (Throw e, w') => (Throw e, w')
           end.
Definition try_catch {A} (c : M A) (h : exn -> M A) : M A :=
  fun w => match c w with
           | (Ok a, w') => (Ok a, w')
           | (Throw e, w') => h e w'
           end.
Definition emit (ev : Event) : M unit :=
  fun w => (Ok tt, mkWorld (rand_tape w) (rand_pos w) (trace w ++ [ev])).

Notation "x <- c ;; k" := (bind c (fun x => k))
  (at level 61, c at next level, right associativity).
Notation "c ;;; k" := (bind c (fun _ => k))
  (at level 61, right associativity).

Definition Math_random : M number :=
  fun w =>
    let r := rand_tape w (rand_pos w) in
    (Ok r, mkWorld (rand_tape w) (S (rand_pos w)) (trace w ++ [EvRandom r])).

(* ================================================================= *)
(** ** The edge function *)

Definition corsHeaders : list (string * string) :=
  [ ("Access-Control-Allow-Origin", "*");
    ("Access-Control-Allow-Methods", "GET, POST, PUT, DELETE, OPTIONS");
    ("Access-Control-Allow-Headers", "Content-Type, Authorization") ].

Definition classNames : list string :=
  [ "T-shirt/top"; "Trouser"; "Pullover"; "Dress"; "Coat";
    "Sandal"; "Shirt"; "Sneaker"; "Bag"; "Ankle boot" ].

Definition ArrayBuffer := list byte.

(** [mockPrediction]: the buffer is not looked at; two draws decide the
    class and the confidence. *)
Definition mockPrediction (imageBuffer : ArrayBuffer) : M value :=
  emit EvPredict ;;;
  r1 <- Math_random ;;
  let randomIndex :=
    Math_floor (mul r1 (of_int (Z.of_nat (List.length classNames)))) in
  r2 <- Math_random ;;
  let confidence := add lit_0_7 (mul r2 lit_0_3) in
  ret (VObj [ ("predicted_class", array_get classNames randomIndex);
              ("confidence", VNum confidence) ]).

(** [new Float32Array(n)] and [.fill(v)]. *)
Definition Float32Array_new (n : nat) : list number := repeat zero n.
Definition Float32Array_fill (v : number) (arr : list number) : list number :=
  map (fun _ => fround v) arr.

(** [preprocessImage]: the buffer is not looked at either. *)
Definition preprocessImage (imageBuffer : ArrayBuffer) : M (list number) :=
  emit EvPreprocess ;;;
  ret (Float32Array_fill lit_0_5 (Float32Array_new 784)).

Record File : Type := mkFile {
  file_name : string;
  file_type : string;          (* the declared content type *)
  file_bytes : ArrayBuffer
}.

Inductive FormDataEntry : Type :=
| EntryText (s : string)
| EntryFile (f : File).

Definition FormData := list (string * FormDataEntry).

(** A request: its method, and what awaiting [req.formData()] gives
    (the entries, or the error the parse is rejected with). *)
Record Request : Type := mkRequest {
  method : string;
  req_body : result FormData
}.

Inductive Body : Type :=
| BodyNull
| BodyJson (json : value).      (* the text JSON.stringify produced, by its value *)

Record Response : Type := mkResponse {
  status : Z;
  headers : list (string * string);
  body : Body
}.

(** [JSON.stringify]: properties whose value is [undefined] are left out
    of an object, an [undefined] array element is written as [null]
    (kept as it is here). *)
Fixpoint json_of (v : value) : value :=
  match v with
  | VObj props =>
      VObj ((fix go (ps : list (string * value)) : list (string * value) :=
               match ps with
               | [] => []
               | (k, VUndefined) :: rest => go rest
               | (k, x) :: rest => (k, json_of x) :: go rest
               end) props)
  | VArr elems => VArr (map json_of elems)
  | _ => v
  end.

Definition JSON_stringify (v : value) : Body := BodyJson (json_of v).

Definition jsonHeaders : list (string * string) :=
  obj_set "Content-Type" "application/json" corsHeaders.

Definition json_response (st : Z) (v : value) : Response :=
  mkResponse st jsonHeaders (JSON_stringify v).

Definition formData (req : Request) : M FormData :=
  emit EvFormData ;;;
  match req_body req with
  | Ok fd => ret fd
  | Throw e => throw e
  end.

(** [!imageFile]: [null] and the empty string are falsy. *)
Definition falsy (entry : option FormDataEntry) : bool :=
  match entry with
  | None => true
  | Some (EntryText s) => String.eqb s ""
  | Some (EntryFile _) => false
  end.

(** [imageFile.type.startsWith("image/")]: a string entry has no [type]
    property, and calling a method on [undefined] throws a TypeError. *)
Definition type_startsWith_image (entry : option FormDataEntry) : M bool :=
  match entry with
  | Some (EntryFile f) => ret (String.prefix "image/" (file_type f))
  | _ => throw (JsError "Cannot read properties of undefined (reading 'startsWith')")
  end.

Definition arrayBuffer (entry : option FormDataEntry) : M ArrayBuffer :=
  emit EvArrayBuffer ;;;
  match entry with
  | Some (EntryFile f) => ret (file_bytes f)
  | _ => throw (JsError "imageFile.arrayBuffer is not a function")
  end.

Definition get_prop (k : string) (v : value) : value :=
  match v with
  | VObj props => match obj_get k props with Some x => x | None => VUndefined end
  | _ => VUndefined
  end.

Definition to_number (v : value) : number :=
  match v with VNum n => n | _ => S754_nan end.

(** [console.log] of the template string: the class interpolated, and
    the number [toFixed(1)] is applied to. *)
Definition console_log_predicted (prediction : value) : M unit :=
  emit (EvConsoleLog (get_prop "predicted_class" prediction)
          (mul (to_number (get_prop "confidence" prediction)) lit_100)).

Definition error_message (e : exn) : string :=
  match e with
  | JsError msg => msg
  | JsThrown _ => "Unknown error"
  end.

(** The body of the [try] block. *)
Definition handler_try (req : Request) : M Response :=
  if negb (String.eqb (method req) "POST") then
    ret (json_response 405 (VObj [("error", VStr "Method not allowed")]))
  else
    fd <- formData req ;;
    let imageFile := obj_get "image" fd in
    if falsy imageFile then
      ret (json_response 400 (VObj [("error", VStr "No image file provided")]))
    else
      is_image <- type_startsWith_image imageFile ;;
      if negb is_image then
        ret (json_response 400
               (VObj [("error", VStr "Invalid file type. Please upload an image.")]))
      else
        imageBuffer <- arrayBuffer imageFile ;;
        preprocessedImage <- preprocessImage imageBuffer ;;
        prediction <- mockPrediction imageBuffer ;;
        console_log_predicted prediction ;;;
        ret (json_response 200 prediction).

(** The [catch] block. *)
Definition handler_catch (error : exn) : M Response :=
  emit (EvConsoleError error) ;;;
  ret (json_response 500
         (VObj [ ("error", VStr "Internal server error");
                 ("message", VStr (error_message error)) ])).

(** The function given to [Deno.serve]. *)
Definition handler (req : Request) : M Response :=
  if String.eqb (method req) "OPTIONS" then
    ret (mkResponse 200 corsHeaders BodyNull)
  else
    try_catch (handler_try req) handler_catch.

(* ================================================================= *)
(** ** Responses and worlds named in the statements *)

(** The object given to [JSON.stringify] on the error paths. *)
Definition error_body (msg : string) : value := VObj [("error", VStr msg)].

(** The response of the [catch] block. *)
Definition internal_error (e : exn) : Response :=
  json_response 500
    (VObj [ ("error", VStr "Internal server error");
            ("message", VStr (error_message e)) ]).

(** The world [w] after the events [evs], no draw consumed. *)
Definition log (w : World) (evs : list Event) : World :=
  mkWorld (rand_tape w) (rand_pos w) (trace w ++ evs).

(** The object [mockPrediction] builds from two draws. *)
Definition prediction_of (r1 r2 : number) : value :=
  VObj [ ("predicted_class",
          array_get classNames
            (Math_floor (mul r1 (of_int (Z.of_nat (List.length classNames))))));
         ("confidence", VNum (add lit_0_7 (mul r2 lit_0_3))) ].

(** The response to a request, as a function of the two numbers
    [Math.random] would give next. *)
Definition response_of (req : Request) (r1 r2 : number) : Response :=
  if String.eqb (method req) "OPTIONS" then mkResponse 200 corsHeaders BodyNull
  else if negb (String.eqb (method req) "POST") then
    json_response 405 (error_body "Method not allowed")
  else
    match req_body req with
    | Throw e => internal_error e
    | Ok fd =>
        match obj_get "image" fd with
        | None => json_response 400 (error_body "No image file provided")
        | Some (EntryText s) =>
            if String.eqb s "" then
              json_response 400 (error_body "No image file provided")
            else
              internal_error
                (JsError "Cannot read properties of undefined (reading 'startsWith')")
        | Some (EntryFile f) =>
            if String.prefix "image/" (file_type f) then
              json_response 200 (prediction_of r1 r2)
            else
              json_response 400
                (error_body "Invalid file type. Please upload an image.")
        end
    end.

(* ================================================================= *)
(** ** Sample inputs *)

(** A generator whose first draws are [0], [0.5], [0.5], and [0] from
    then on. *)
Definition sample_tape (n : nat) : number :=
  match n with
  | 1%nat | 2%nat => lit_0_5
  | _ => zero
  end.

Definition sample_world : World := mkWorld sample_tape 0 [].

(** The eight bytes of the PNG signature followed by the length and type
    of an IHDR chunk, and nothing more: a PNG header with a truncated
    body. *)
Definition truncated_png : ArrayBuffer :=
  [ x89; x50; x4e; x47; x0d; x0a; x1a; x0a;
    x00; x00; x00; x0d; x49; x48; x44; x52 ].

Definition png_upload : Request :=
  mkRequest "POST"
    (Ok [("image", EntryFile (mkFile "shirt.png" "image/png" truncated_png))]).

Definition text_upload : Request :=
  mkRequest "POST"
    (Ok [("image", EntryFile (mkFile "notes.txt" "text/plain" [x68; x69]))]).

Definition rejected_upload : Request :=
  mkRequest "POST" (Throw (JsError "Body can not be decoded as form data")).

Definition get_request : Request := mkRequest "GET" (Ok []).

Definition options_request : Request := mkRequest "OPTIONS" (Ok []).

(** The value a computation returned, [undefined] if it threw. *)
Definition returned (r : result value) : value :=
  match r with
  | Ok v => v
  | Throw _ => VUndefined
  end.

(* ================================================================= *)
(** ** The index [mockPrediction] reads the class at *)

(** [Math.floor(Math.random() * classNames.length)] as an array index,
    for the draw [r]. *)
Definition class_index (r : number) : option nat :=
  to_index (Math_floor (mul r (of_int (Z.of_nat (List.length classNames))))).

(* ================================================================= *)
(** ** The upload page ([src/App.tsx])

    The component's five state variables, its event handlers, and what
    its render shows.  A handler that starts asynchronous work (a
    [FileReader] load, the [fetch] of [handleSubmit]) is split where it
    waits: the part before runs when the event fires, the part after
    when the work settles, and other events may come in between.  The
    work in progress is kept beside the React state. *)

Module App.

Record State : Type := mkState {
  selectedFile : option File;     (* [None] is [null] *)
  previewUrl : string;
  prediction : option value;      (* [None] is [null] *)
  loading : bool;
  error : string
}.

(** The React state, the files whose [readAsDataURL] has not finished,
    and the files of the requests whose [fetch] has not settled (each is
    the [selectedFile] the running [handleSubmit] closed over). *)
Record Page : Type := mkPage {
  ui : State;
  reads : list File;
  requests : list File
}.

Definition initial : Page := mkPage (mkState None "" None false "") [] [].

Definition setSelectedFile (f : option File) (st : State) : State :=
  mkState f (previewUrl st) (prediction st) (loading st) (error st).
Definition setPreviewUrl (u : string) (st : State) : State :=
  mkState (selectedFile st) u (prediction st) (loading st) (error st).
Definition setPrediction (p : option value) (st : State) : State :=
  mkState (selectedFile st) (previewUrl st) p (loading st) (error st).
Definition setLoading (b : bool) (st : State) : State :=
  mkState (selectedFile st) (previewUrl st) (prediction st) b (error st).
Definition setError (msg : string) (st : State) : State :=
  mkState (selectedFile st) (previewUrl st) (prediction st) (loading st) msg.

(** [handleFileSelect]: three setters, and a [FileReader] started on the
    file. *)
Definition handleFileSelect (file : File) (p : Page) : Page :=
  mkPage (setPrediction None (setError "" (setSelectedFile (Some file) (ui p))))
         (reads p ++ [file]) (requests p).

(** [reader.onload]: the reader's result becomes the preview. *)
Definition reader_onload (result : string) (st : State) : State :=
  setPreviewUrl result st.

(** [handleDrop], on the files of the drop. *)
Definition handleDrop (files : list File) (p : Page) : Page :=
  match files with
  | file :: _ =>
      if String.prefix "image/" (file_type file) then handleFileSelect file p
      else mkPage (setError "Please select an image file" (ui p)) (reads p) (requests p)
  | [] => p
  end.

(** [handleDragOver] only prevents the default action. *)
Definition handleDragOver (p : Page) : Page := p.

(** [handleFileInput], on [e.target.files] ([None] is [null]). *)
Definition handleFileInput (files : option (list File)) (p : Page) : Page :=
  match files with
  | Some (file :: _) => handleFileSelect file p
  | _ => p
  end.


(** How the [fetch] settles: rejected, or resolved with a response of
    which [handleSubmit] reads [ok] and [json()]. *)
Inductive FetchOutcome : Type :=
| Rejected (e : exn)
| Resolved (ok : bool) (json : result value).

(** [handleSubmit] up to its [await fetch(...)]. *)
Definition handleSubmit_begin (p : Page) : Page :=
  match selectedFile (ui p) with
  | None => mkPage (setError "Please select an image first" (ui p)) (reads p) (requests p)
  | Some file =>
      mkPage (setError "" (setLoading true (ui p))) (reads p) (requests p ++ [file])
  end.

(** [handleSubmit] from the moment the [fetch] settles: the rest of the
    [try], the [catch], the [finally]. *)
Definition handleSubmit_settle (outcome : FetchOutcome) (st : State) : State :=
  let failed := setError "Failed to classify image. Please try again." in
  setLoading false
    (match outcome with
     | Rejected _ => failed st
     | Resolved ok json =>
         if negb ok then failed st
         else match json with
              | Ok result => setPrediction (Some result) st
              | Throw _ => failed st
              end
     end).

(** *** What the render shows *)


Definition button_disabled (st : State) : bool :=
  match selectedFile st with None => true | Some _ => false end || loading st.

Definition shows_error (st : State) : bool := negb (String.eqb (error st) "").

Definition shows_preview (st : State) : bool := negb (String.eqb (previewUrl st) "").





(** *** The page as a transition system *)

Fixpoint remove_nth {A : Type} (n : nat) (l : list A) : list A :=
  match n, l with
  | _, [] => []
  | O, _ :: rest => rest
  | S n', x :: rest => x :: remove_nth n' rest
  end.

(** What can happen to the page, as the JSX wires it: [onDrop],
    [onDragOver], the file input's [onChange], the button's [onClick]
    (the button has [disabled={!selectedFile || loading}], and a disabled
    button gives no click), a [FileReader] finishing, a [fetch] settling.
    A load or a settlement names the pending read or request it
    completes. *)
Inductive UiEvent : Type :=
| Drop (files : list File)
| DragOver
| FileInput (files : option (list File))
| Click
| ReaderLoad (n : nat) (result : string)
| Settle (n : nat) (outcome : FetchOutcome).

Definition step (ev : UiEvent) (p : Page) : Page :=
  match ev with
  | Drop files => handleDrop files p
  | DragOver => handleDragOver p
  | FileInput files => handleFileInput files p
  | Click => if button_disabled (ui p) then p else handleSubmit_begin p
  | ReaderLoad n result =>
      match nth_error (reads p) n with
      | Some _ => mkPage (reader_onload result (ui p)) (remove_nth n (reads p)) (requests p)
      | None => p
      end
  | Settle n outcome =>
      match nth_error (requests p) n with
      | Some _ =>
          mkPage (handleSubmit_settle outcome (ui p)) (reads p) (remove_nth n (requests p))
      | None => p
      end
  end.

Definition run (evs : list UiEvent) (p : Page) : Page :=
  fold_left (fun q ev => step ev q) evs p.

Definition reachable (p : Page) : Prop := exists evs, p = run evs initial.

(** *** The page against the edge function *)





(** *** Invariants of the transition system *)

(** A request is in flight exactly while [loading] is set, and then
    there is one. *)
Definition in_flight_inv (p : Page) : Prop :=
  List.length (requests p) = if loading (ui p) then 1%nat else 0%nat.

(** The messages the page can show. *)
Definition error_inv (p : Page) : Prop :=
  error (ui p) = "" \/
  error (ui p) = "Please select an image file" \/
  error (ui p) = "Failed to classify image. Please try again.".

(** Before a file is selected nothing is shown and nothing is pending. *)
Definition blank_inv (p : Page) : Prop :=
  selectedFile (ui p) = None ->
  previewUrl (ui p) = "" /\ prediction (ui p) = None /\ loading (ui p) = false /\
  reads p = [] /\ requests p = [].

End App.

(* ================================================================= *)
(** * Facts about rounding *)

Module RoundingFacts.

(** *** Rounding a quotient to the nearest integer *)

Lemma pow2_pos k : 0 <= k -> 0 < 2 ^ k.
Proof. intros; apply Z.pow_pos_nonneg; lia. Qed.

Lemma rne_cases X k :
  0 <= k ->
  let q := X / 2 ^ k in
  (rne X k = q /\ 2 * (X mod 2 ^ k) <= 2 ^ k) \/
  (rne X k = q + 1 /\ 2 ^ k <= 2 * (X mod 2 ^ k)).
Proof.
  intros Hk q. unfold rne. fold q.
  destruct (Z.compare_spec (2 * (X mod 2 ^ k)) (2 ^ k)) as [E|E|E].
  - destruct (Z.even q); [left|right]; split; lia.
  - left; split; lia.
  - right; split; lia.
Qed.

Lemma rne_mono X1 X2 k : 0 <= k -> X1 <= X2 -> rne X1 k <= rne X2 k.
Proof.
  intros Hk HX.
  pose proof (pow2_pos k Hk) as Hp.
  pose proof (Z.div_le_mono X1 X2 (2 ^ k) Hp HX) as Hq.
  pose proof (Z.div_mod X1 (2 ^ k) ltac:(lia)) as D1.
  pose proof (Z.div_mod X2 (2 ^ k) ltac:(lia)) as D2.
  pose proof (Z.mod_pos_bound X1 (2 ^ k) Hp) as B1.
  pose proof (Z.mod_pos_bound X2 (2 ^ k) Hp) as B2.
  unfold rne.
  set (p := 2 ^ k) in *. set (q1 := X1 / p) in *. set (q2 := X2 / p) in *.
  set (r1 := X1 mod p) in *. set (r2 := X2 mod p) in *.
  assert (q1 < q2 \/ (q1 = q2 /\ r1 <= r2)) as [Hlt | [Heq Hr]] by nia.
  - destruct (Z.compare_spec (2 * r1) p), (Z.compare_spec (2 * r2) p);
      destruct (Z.even q1), (Z.even q2); lia.
  - rewrite <- Heq.
    destruct (Z.compare_spec (2 * r1) p), (Z.compare_spec (2 * r2) p);
      destruct (Z.even q1); lia.
Qed.

Lemma rne_lower X Y k : 0 <= k -> Y * 2 ^ k <= X -> Y <= rne X k.
Proof.
  intros Hk H. pose proof (pow2_pos k Hk) as Hp.
  assert (Y <= X / 2 ^ k) by (apply Z.div_le_lower_bound; lia).
  destruct (rne_cases X k Hk) as [[-> _]|[-> _]]; lia.
Qed.

Lemma rne_upper X Y k : 0 <= k -> X <= Y * 2 ^ k -> rne X k <= Y.
Proof.
  intros Hk H. pose proof (pow2_pos k Hk) as Hp.
  pose proof (Z.div_mod X (2 ^ k) ltac:(lia)) as D.
  pose proof (Z.mod_pos_bound X (2 ^ k) Hp) as B.
  unfold rne. set (p := 2 ^ k) in *. set (q := X / p) in *. set (r := X mod p) in *.
  destruct (Z.compare_spec (2 * r) p); try destruct (Z.even q); nia.
Qed.

Lemma rne_scale X k j : 0 <= k -> 0 <= j -> rne (X * 2 ^ j) (k + j) = rne X k.
Proof.
  intros Hk Hj. pose proof (pow2_pos k Hk) as Hp. pose proof (pow2_pos j Hj) as Hpj.
  unfold rne. rewrite Z.pow_add_r by lia.
  rewrite Z.div_mul_cancel_r by lia.
  rewrite Z.mul_mod_distr_r by lia.
  replace (2 * (X mod 2 ^ k * 2 ^ j)) with (2 * (X mod 2 ^ k) * 2 ^ j) by ring.
  rewrite <- (Zmult_compare_compat_r (2 * (X mod 2 ^ k)) (2 ^ k) (2 ^ j)) by lia.
  reflexivity.
Qed.

(** *** Binary digits *)

Lemma digits2_pos_bounds m :
  2 ^ (Z.pos (digits2_pos m) - 1) <= Z.pos m < 2 ^ Z.pos (digits2_pos m).
Proof.
  induction m as [p IH|p IH|]; cbn [digits2_pos].
  1, 2: rewrite Pos2Z.inj_succ;
    replace (Z.succ (Z.pos (digits2_pos p)) - 1)
      with (Z.succ (Z.pos (digits2_pos p) - 1)) by lia;
    rewrite !Z.pow_succ_r by lia; lia.
  cbn. lia.
Qed.

Lemma pow2_le_mono a b : 0 <= a <= b -> 2 ^ a <= 2 ^ b.
Proof. intros. apply Z.pow_le_mono_r; lia. Qed.

Lemma pow2_lt_inv a b : 0 <= a -> 0 <= b -> 2 ^ a < 2 ^ b -> a < b.
Proof. intros Ha Hb H. apply (Z.pow_lt_mono_r_iff 2); lia. Qed.

Lemma has_digits_pos m : has_digits (Z.pos m) (Z.pos (digits2_pos m)).
Proof. split; [lia | apply digits2_pos_bounds]. Qed.

Lemma has_digits_mono X1 d1 X2 d2 :
  has_digits X1 d1 -> has_digits X2 d2 -> X1 <= X2 -> d1 <= d2.
Proof.
  intros [P1 [L1 U1]] [P2 [L2 U2]] H.
  assert (2 ^ (d1 - 1) < 2 ^ d2) by lia.
  apply pow2_lt_inv in H0; lia.
Qed.

Lemma has_digits_unique X d1 d2 : has_digits X d1 -> has_digits X d2 -> d1 = d2.
Proof.
  intros H1 H2.
  pose proof (has_digits_mono _ _ _ _ H1 H2 ltac:(lia)).
  pose proof (has_digits_mono _ _ _ _ H2 H1 ltac:(lia)). lia.
Qed.

Lemma has_digits_scale X d j : 0 <= j -> has_digits X d -> has_digits (X * 2 ^ j) (d + j).
Proof.
  intros Hj [P [L U]]. pose proof (pow2_pos j Hj).
  split; [lia|].
  replace (d + j - 1) with ((d - 1) + j) by lia.
  rewrite !Z.pow_add_r by lia. nia.
Qed.

(** *** Right shifts with a round bit and a sticky bit *)

Lemma iter_pos_nat {A} (f : A -> A) p x :
  iter_pos f p x = Nat.iter (Pos.to_nat p) f x.
Proof.
  revert x. induction p as [p IH|p IH|]; intros x; cbn [iter_pos].
  - rewrite !IH. rewrite Pos2Nat.inj_xI. cbn [Nat.iter].
    rewrite <- Nat.iter_add. rewrite Nat.iter_succ_r.
    f_equal. lia.
  - rewrite !IH. rewrite Pos2Nat.inj_xO. rewrite <- Nat.iter_add. f_equal. lia.
  - reflexivity.
Qed.

Lemma shr_inv_0 M : 0 <= M -> shr_inv M 0 (Build_shr_record M false false).
Proof.
  intros. unfold shr_inv; cbn [shr_m shr_r shr_s]. rewrite Z.pow_0_r.
  repeat split; try lia; intros; try discriminate; lia.
Qed.

Lemma shr_1_inv M k mrs : 0 <= k -> shr_inv M k mrs -> shr_inv M (k + 1) (shr_1 mrs).
Proof.
  intros Hk. destruct mrs as [m r s]. unfold shr_inv; cbn [shr_m shr_r shr_s].
  rewrite Z.pow_add_r by lia. change (2 ^ 1) with 2.
  pose proof (pow2_pos k Hk) as Hp. set (p := 2 ^ k) in *.
  intros (Hm & Hrem & Hr & Hs).
  assert (Hrs : orb r s = true <-> M - m * p <> 0).
  { destruct r, s; cbn; intuition (try discriminate; try lia). }
  destruct m as [|[q|q|]|q]; try lia; cbn [shr_1 shr_m shr_r shr_s];
    repeat split; intros; try discriminate; try lia;
    try (apply Hrs; lia);
    try (match goal with H : orb _ _ = true |- _ => apply Hrs in H end; lia).
Qed.

Lemma shr_iter_inv M n : 0 <= M ->
  shr_inv M (Z.of_nat n) (Nat.iter n shr_1 (Build_shr_record M false false)).
Proof.
  intros HM. induction n as [|n IH].
  - apply shr_inv_0; assumption.
  - cbn [Nat.iter]. replace (Z.of_nat (S n)) with (Z.of_nat n + 1) by lia.
    apply shr_1_inv; [lia | exact IH].
Qed.

Lemma shr_spec M e k : 0 <= M -> 0 <= k ->
  exists mrs, shr (Build_shr_record M false false) e k = (mrs, e + k) /\ shr_inv M k mrs.
Proof.
  intros HM Hk. destruct k as [|p|p]; try lia.
  - exists (Build_shr_record M false false). cbn [shr]. rewrite Z.add_0_r.
    split; [reflexivity | apply shr_inv_0; assumption].
  - eexists. cbn [shr]. split; [reflexivity|].
    rewrite iter_pos_nat. rewrite <- (positive_nat_Z p) at 1.
    apply shr_iter_inv; assumption.
Qed.

Lemma rne_of_inv M k mrs : 0 <= k -> shr_inv M k mrs ->
  round_nearest_even (shr_m mrs) (loc_of_shr_record mrs) = rne M k.
Proof.
  intros Hk. destruct mrs as [m r s]. unfold shr_inv; cbn [shr_m shr_r shr_s].
  pose proof (pow2_pos k Hk) as Hp.
  intros (Hm & Hrem & Hr & Hs).
  assert (Hq : M / 2 ^ k = m).
  { symmetry. apply (Z.div_unique M (2 ^ k) m (M - m * 2 ^ k)); lia. }
  assert (Hmod : M mod 2 ^ k = M - m * 2 ^ k).
  { symmetry. apply (Z.mod_unique M (2 ^ k) m (M - m * 2 ^ k)); lia. }
  unfold rne. rewrite Hq, Hmod. set (p := 2 ^ k) in *. set (rem := M - m * p) in *.
  destruct (Z.compare_spec (2 * rem) p) as [E|E|E];
    destruct r, s; cbn [loc_of_shr_record round_nearest_even];
    try reflexivity;
    try (exfalso; intuition (try discriminate; try lia); fail).
Qed.

(** *** Rounding in binary64 *)

Lemma fexp_eq e : fexp 53 1024 e = Z.max (e - 53) (-1074).
Proof. reflexivity. Qed.

Lemma shr_nonpos mrs e n : n <= 0 -> shr mrs e n = (mrs, e).
Proof. destruct n; intros; try reflexivity; lia. Qed.

Lemma has_digits_log2 X : 0 < X -> has_digits X (Z.log2 X + 1).
Proof.
  intros H. pose proof (Z.log2_spec X H). pose proof (Z.log2_nonneg X).
  split; [lia|]. replace (Z.log2 X + 1 - 1) with (Z.log2 X) by lia.
  replace (Z.log2 X + 1) with (Z.succ (Z.log2 X)) by lia. assumption.
Qed.

Lemma pow2_add a b : 0 <= a -> 0 <= b -> 2 ^ a * 2 ^ b = 2 ^ (a + b).
Proof. intros; rewrite Z.pow_add_r; lia. Qed.

Lemma V_mono X1 X2 : 0 < X1 -> X1 <= X2 -> V X1 <= V X2.
Proof.
  intros H1 H12. unfold V, shift_of.
  pose proof (has_digits_log2 X1 H1) as D1.
  pose proof (has_digits_log2 X2 ltac:(lia)) as D2.
  pose proof (has_digits_mono _ _ _ _ D1 D2 H12) as Hd.
  set (d1 := Z.log2 X1 + 1) in *. set (d2 := Z.log2 X2 + 1) in *.
  set (k1 := Z.max (d1 + G - 53) (-1074) - G).
  set (k2 := Z.max (d2 + G - 53) (-1074) - G).
  assert (Hk1 : 0 <= k1) by (unfold k1, G; lia).
  assert (Hk2 : 0 <= k2) by (unfold k2, G; lia).
  assert (Hk : k1 = k2 \/ k1 < k2) by (unfold k1, k2; lia).
  destruct Hk as [Hk|Hk].
  - rewrite <- Hk. pose proof (rne_mono X1 X2 k1 Hk1 H12).
    pose proof (pow2_pos k1 Hk1). nia.
  - assert (Hk2' : k2 = d2 - 53) by (unfold k1, k2, G in *; lia).
    destruct D1 as (P1 & _ & U1). destruct D2 as (P2 & L2 & _).
    assert (Hup : rne X1 k1 <= 2 ^ (d2 - 1 - k1)).
    { apply rne_upper; [assumption|]. rewrite pow2_add by lia.
      replace (d2 - 1 - k1 + k1) with (d2 - 1) by lia.
      assert (2 ^ d1 <= 2 ^ (d2 - 1)) by (apply pow2_le_mono; unfold k1, k2, G in *; lia).
      lia. }
    assert (Hlo : 2 ^ 52 <= rne X2 k2).
    { apply rne_lower; [assumption|]. rewrite pow2_add by lia.
      replace (52 + k2) with (d2 - 1) by lia. assumption. }
    pose proof (pow2_pos k1 Hk1). pose proof (pow2_pos k2 Hk2).
    apply Z.le_trans with (2 ^ (d2 - 1)).
    + replace (d2 - 1) with ((d2 - 1 - k1) + k1) by lia.
      rewrite <- pow2_add by lia. nia.
    + replace (d2 - 1) with (52 + k2) by lia.
      rewrite <- pow2_add by lia. nia.
Qed.

Lemma digits_le_of_lt X d n : has_digits X d -> X < 2 ^ n -> 0 <= n -> d <= n.
Proof.
  intros (P & L & U) H Hn.
  assert (2 ^ (d - 1) < 2 ^ n) by lia.
  apply pow2_lt_inv in H0; lia.
Qed.

Lemma digits_ge_of_le X d n : has_digits X d -> 2 ^ n <= X -> 0 <= n -> n < d.
Proof.
  intros (P & L & U) H Hn.
  assert (2 ^ n < 2 ^ d) by lia.
  apply pow2_lt_inv in H0; lia.
Qed.

(** The rounding of [M * 2^e] when no left shift is needed. *)
Lemma bra_spec (M : positive) (e : Z) :
  let d := Z.pos (digits2_pos M) in
  let fe := fexp 53 1024 (d + e) in
  let N := rne (Z.pos M) (fe - e) in
  e <= fe -> d + e <= 1023 ->
  binary_round_aux 53 1024 false (Z.pos M) e loc_Exact = mkfloat N fe /\
  0 <= N <= 2 ^ 53 /\ (-1074 < fe -> 2 ^ 52 <= N).
Proof.
  intros d fe N Hk Hov.
  pose proof (has_digits_pos M) as HD. fold d in HD.
  assert (Hfe : fe = Z.max (d + e - 53) (-1074)) by reflexivity.
  set (k := fe - e) in *. assert (0 <= k) as Hk0 by (unfold k; lia).
  pose proof (pow2_pos k Hk0) as Hpk.
  (* bounds on N *)
  assert (HN0 : 0 <= N).
  { apply rne_lower; [assumption|]. lia. }
  assert (HNup : N <= 2 ^ 53).
  { destruct HD as (Pd & Ld & Ud).
    destruct (Z_lt_le_dec d k) as [Hdk|Hdk].
    - apply Z.le_trans with 1; [|lia].
      apply rne_upper; [assumption|].
      assert (2 ^ d <= 2 ^ k) by (apply pow2_le_mono; lia). lia.
    - apply Z.le_trans with (2 ^ (d - k)).
      + apply rne_upper; [assumption|]. rewrite pow2_add by lia.
        replace (d - k + k) with d by lia. lia.
      + apply pow2_le_mono. unfold k. lia. }
  assert (HNlo : -1074 < fe -> 2 ^ 52 <= N).
  { intros Hn. destruct HD as (Pd & Ld & Ud).
    apply rne_lower; [assumption|]. rewrite pow2_add by lia.
    replace (52 + k) with (d - 1) by (unfold k; lia). assumption. }
  split; [| split; [split; assumption | assumption]].
  unfold binary_round_aux, shr_fexp. cbn [Zdigits2 shr_record_of_loc].
  fold d. fold fe. fold k.
  destruct (shr_spec (Z.pos M) e k ltac:(lia) Hk0) as (mrs & Hshr & Hinv).
  rewrite Hshr. rewrite (rne_of_inv _ _ _ Hk0 Hinv). fold N.
  replace (e + k) with fe by (unfold k; lia).
  unfold mkfloat.
  destruct (Z.eqb_spec N 0) as [HN|HN].
  - rewrite HN. cbn [Zdigits2]. rewrite shr_nonpos by (rewrite fexp_eq; lia).
    reflexivity.
  - destruct (Z.eqb_spec N (2 ^ 53)) as [HN2|HN2].
    + rewrite HN2.
      change (Zdigits2 (2 ^ 53)) with 54.
      replace (fexp 53 1024 (54 + fe) - fe) with 1 by (rewrite fexp_eq; lia).
      cbn [shr iter_pos shr_1 shr_m]. change (2 ^ 53) with (Z.pos (xO (2 ^ 52))).
      cbn [shr_1 shr_m].
      replace (fe + 1 <=? 1024 - 53) with true by (symmetry; apply Z.leb_le; lia).
      reflexivity.
    + assert (HNpos : 0 < N) by lia.
      destruct N as [|n|n] eqn:EN; try lia.
      cbn [Zdigits2].
      pose proof (has_digits_pos n) as HDn.
      assert (Z.pos (digits2_pos n) <= 53).
      { apply (digits_le_of_lt _ _ 53 HDn); lia. }
      rewrite shr_nonpos by (rewrite fexp_eq; lia).
      cbn [shr_m].
      replace (fe <=? 1024 - 53) with true by (symmetry; apply Z.leb_le; lia).
      rewrite Pos2Z.id. reflexivity.
Qed.

Lemma rne_0 X : rne X 0 = X.
Proof.
  unfold rne. rewrite Z.pow_0_r, Z.div_1_r, Z.mod_1_r. reflexivity.
Qed.

Lemma bounded_facts m e :
  bounded 53 1024 m e = true ->
  let d := Z.pos (digits2_pos m) in
  -1074 <= e <= 971 /\ d <= 53 /\ (-1074 < e -> d = 53) /\
  fexp 53 1024 (d + e) = e.
Proof.
  intros H d. unfold bounded, canonical_mantissa in H.
  apply andb_true_iff in H. destruct H as [H1 H2].
  apply Z.eqb_eq in H1. apply Z.leb_le in H2. fold d in H1.
  rewrite fexp_eq in *. lia.
Qed.

Lemma mkfloat_facts N fe :
  0 <= N <= 2 ^ 53 -> (-1074 < fe -> 2 ^ 52 <= N) -> -1074 <= fe <= 970 ->
  valid_binary 53 1024 (mkfloat N fe) = true /\
  nonneg_fin (mkfloat N fe) = true /\
  val (mkfloat N fe) = N * 2 ^ (fe - G).
Proof.
  intros HN Hlo Hfe. unfold mkfloat.
  destruct (Z.eqb_spec N 0) as [E0|E0].
  - subst N. cbn. auto.
  - destruct (Z.eqb_spec N (2 ^ 53)) as [E1|E1].
    + split; [|split].
      * cbn [valid_binary]. unfold bounded, canonical_mantissa.
        change (Z.pos (digits2_pos (2 ^ 52))) with 53.
        rewrite fexp_eq. apply andb_true_iff. split.
        -- apply Z.eqb_eq. lia.
        -- apply Z.leb_le. lia.
      * reflexivity.
      * cbn [val]. rewrite E1. change (Z.pos (2 ^ 52)) with (2 ^ 52).
        replace (fe + 1 - G) with (1 + (fe - G)) by lia.
        rewrite <- pow2_add by (unfold G; lia).
        change (2 ^ 53) with (2 ^ 52 * 2 ^ 1). ring.
    + assert (0 < N < 2 ^ 53) as HN' by lia.
      destruct N as [|n|n]; try lia.
      rewrite Pos2Z.id.
      pose proof (has_digits_pos n) as HD.
      pose proof (digits_le_of_lt _ _ 53 HD ltac:(lia) ltac:(lia)) as Hd.
      split; [|split].
      * cbn [valid_binary]. unfold bounded, canonical_mantissa.
        rewrite fexp_eq. apply andb_true_iff. split.
        -- apply Z.eqb_eq.
           destruct (Z_lt_le_dec (-1074) fe) as [Hn|Hn].
           ++ pose proof (digits_ge_of_le _ _ 52 HD (Hlo Hn) ltac:(lia)). lia.
           ++ lia.
        -- apply Z.leb_le. lia.
      * reflexivity.
      * reflexivity.
Qed.

Lemma shift_of_scaled (M : positive) (e : Z) :
  G <= e ->
  shift_of (Z.pos M * 2 ^ (e - G)) = fexp 53 1024 (Z.pos (digits2_pos M) + e) - G.
Proof.
  intros He. unfold shift_of.
  pose proof (has_digits_scale _ _ (e - G) ltac:(lia) (has_digits_pos M)) as H1.
  assert (0 < Z.pos M * 2 ^ (e - G)) as Hpos.
  { pose proof (pow2_pos (e - G) ltac:(lia)). lia. }
  pose proof (has_digits_unique _ _ _ H1 (has_digits_log2 _ Hpos)) as Hu.
  rewrite <- Hu. rewrite fexp_eq. lia.
Qed.

(** The result of rounding, as a value. *)
Lemma bra_val (M : positive) (e : Z) :
  let d := Z.pos (digits2_pos M) in
  e <= fexp 53 1024 (d + e) -> G <= e -> d + e <= 1023 ->
  let R := binary_round_aux 53 1024 false (Z.pos M) e loc_Exact in
  valid_binary 53 1024 R = true /\ nonneg_fin R = true /\
  val R = V (Z.pos M * 2 ^ (e - G)).
Proof.
  intros d Hk HG Hov R.
  destruct (bra_spec M e Hk Hov) as (HR & HN & Hlo).
  fold d in HR, HN, Hlo. unfold R. rewrite HR.
  set (fe := fexp 53 1024 (d + e)) in *.
  assert (Hfe : -1074 <= fe <= 970) by (unfold fe; rewrite fexp_eq; lia).
  destruct (mkfloat_facts _ fe HN Hlo Hfe) as (Hv & Hs & Hval).
  split; [assumption|split; [assumption|]].
  rewrite Hval. unfold V. rewrite shift_of_scaled by assumption. fold d. fold fe.
  replace (fe - G) with ((fe - e) + (e - G)) at 2 by lia.
  rewrite rne_scale by lia. reflexivity.
Qed.

Lemma pos_iter_xO m d : Z.pos (Pos.iter xO m d) = Z.pos m * 2 ^ Z.pos d.
Proof.
  induction d as [|d IH] using Pos.peano_ind.
  - cbn [Pos.iter]. rewrite Pos2Z.inj_xO. change (2 ^ 1) with 2. ring.
  - rewrite Pos.iter_succ. rewrite Pos2Z.inj_xO, IH.
    rewrite Pos2Z.inj_succ. rewrite Z.pow_succ_r by lia. ring.
Qed.

Lemma shl_align_spec m e e' :
  let '(mz, ez) := shl_align m e e' in
  ez = Z.min e e' /\ Z.pos mz = Z.pos m * 2 ^ (e - ez).
Proof.
  unfold shl_align. destruct (e' - e) as [|p|p] eqn:E.
  - split; [lia|]. rewrite Z.sub_diag. change (2 ^ 0) with 1. lia.
  - split; [lia|]. rewrite Z.sub_diag. change (2 ^ 0) with 1. lia.
  - split; [lia|]. rewrite pos_iter_xO. f_equal. f_equal. lia.
Qed.

Lemma binary_round_val (M : positive) (e : Z) :
  G <= e -> Z.pos (digits2_pos M) + e <= 1023 ->
  let R := binary_round 53 1024 false M e in
  valid_binary 53 1024 R = true /\ nonneg_fin R = true /\
  val R = V (Z.pos M * 2 ^ (e - G)).
Proof.
  intros HG Hov R. unfold R, binary_round.
  set (d := Z.pos (digits2_pos M)) in *.
  set (fe := fexp 53 1024 (d + e)).
  pose proof (shl_align_spec M e fe) as Hs.
  destruct (shl_align M e fe) as [mz ez]. destruct Hs as (Hez & Hmz).
  assert (Hfe : fe = Z.max (d + e - 53) (-1074)) by reflexivity.
  assert (Hdz : Z.pos (digits2_pos mz) = d + (e - ez)).
  { apply (has_digits_unique (Z.pos mz)); [apply has_digits_pos|].
    rewrite Hmz. apply has_digits_scale; [lia|apply has_digits_pos]. }
  assert (HX : Z.pos mz * 2 ^ (ez - G) = Z.pos M * 2 ^ (e - G)).
  { rewrite Hmz. rewrite <- Z.mul_assoc. rewrite pow2_add by (unfold G in *; lia).
    f_equal. f_equal. lia. }
  rewrite <- HX. apply bra_val.
  - rewrite Hdz. replace (d + (e - ez) + ez) with (d + e) by lia. fold fe. lia.
  - unfold G in *. lia.
  - rewrite Hdz. lia.
Qed.

(** *** Comparison, product and sum, on values *)

Lemma val_finite m e : val (S754_finite false m e) = Z.pos m * 2 ^ (e - G).
Proof. reflexivity. Qed.

Lemma val_lt_of_exp m1 e1 m2 e2 :
  bounded 53 1024 m1 e1 = true -> bounded 53 1024 m2 e2 = true -> e1 < e2 ->
  Z.pos m1 * 2 ^ (e1 - G) < Z.pos m2 * 2 ^ (e2 - G).
Proof.
  intros B1 B2 He.
  destruct (bounded_facts _ _ B1) as (R1 & D1 & _ & _).
  destruct (bounded_facts _ _ B2) as (R2 & D2 & N2 & _).
  pose proof (has_digits_pos m1) as (_ & _ & U1).
  pose proof (has_digits_pos m2) as (_ & L2 & _).
  rewrite (N2 ltac:(lia)) in L2.
  assert (2 ^ Z.pos (digits2_pos m1) <= 2 ^ 53) by (apply pow2_le_mono; lia).
  pose proof (pow2_pos (e1 - G) ltac:(unfold G; lia)).
  pose proof (pow2_pos (e2 - G) ltac:(unfold G; lia)).
  apply Z.lt_le_trans with (2 ^ 53 * 2 ^ (e1 - G)).
  - apply Z.mul_lt_mono_pos_r; lia.
  - apply Z.le_trans with (2 ^ (53 - 1) * 2 ^ (e2 - G)).
    + rewrite !pow2_add by (unfold G; lia). apply pow2_le_mono. unfold G. lia.
    + apply Z.mul_le_mono_nonneg_r; lia.
Qed.

(** On valid non-negative numbers the comparison of [SpecFloat] is the
    comparison of values. *)
Lemma SFcompare_val x y :
  valid_binary 53 1024 x = true -> valid_binary 53 1024 y = true ->
  nonneg_fin x = true -> nonneg_fin y = true ->
  SFcompare x y = Some (val x ?= val y).
Proof.
  intros Vx Vy Nx Ny.
  destruct x as [[|]|?| |[|] m1 e1]; try discriminate;
  destruct y as [[|]|?| |[|] m2 e2]; try discriminate; cbn [valid_binary] in *.
  - reflexivity.
  - cbn [SFcompare val]. f_equal. symmetry. apply Z.compare_lt_iff.
    destruct (bounded_facts _ _ Vy) as (R2 & _).
    pose proof (pow2_pos (e2 - G) ltac:(unfold G; lia)). lia.
  - cbn [SFcompare val]. f_equal. symmetry. apply Z.compare_gt_iff.
    destruct (bounded_facts _ _ Vx) as (R1 & _).
    pose proof (pow2_pos (e1 - G) ltac:(unfold G; lia)). lia.
  - cbn [SFcompare val]. f_equal.
    destruct (Z.compare_spec e1 e2) as [E|E|E].
    + subst e2. destruct (bounded_facts _ _ Vx) as (R1 & _).
      rewrite <- (Zmult_compare_compat_r (Z.pos m1) (Z.pos m2) (2 ^ (e1 - G)))
        by (pose proof (pow2_pos (e1 - G) ltac:(unfold G; lia)); lia).
      reflexivity.
    + symmetry. apply Z.compare_lt_iff. apply val_lt_of_exp; assumption.
    + symmetry. apply Z.compare_gt_iff. apply val_lt_of_exp; assumption.
Qed.

Lemma SFltb_val x y :
  valid_binary 53 1024 x = true -> valid_binary 53 1024 y = true ->
  nonneg_fin x = true -> nonneg_fin y = true ->
  SFltb x y = true <-> val x < val y.
Proof.
  intros. unfold SFltb. rewrite SFcompare_val by assumption.
  destruct (Z.compare_spec (val x) (val y)); split; intros; try discriminate; try lia; reflexivity.
Qed.

Lemma SFleb_val x y :
  valid_binary 53 1024 x = true -> valid_binary 53 1024 y = true ->
  nonneg_fin x = true -> nonneg_fin y = true ->
  SFleb x y = true <-> val x <= val y.
Proof.
  intros. unfold SFleb. rewrite SFcompare_val by assumption.
  destruct (Z.compare_spec (val x) (val y)); split; intros; try discriminate; try lia; reflexivity.
Qed.

(** A representable value rounds to itself. *)
Lemma V_val m e : bounded 53 1024 m e = true -> V (Z.pos m * 2 ^ (e - G)) = Z.pos m * 2 ^ (e - G).
Proof.
  intros B. destruct (bounded_facts _ _ B) as (R & _ & _ & F).
  unfold V. rewrite shift_of_scaled by (unfold G; lia). rewrite F.
  replace (e - G) with (0 + (e - G)) at 2 by lia.
  rewrite rne_scale by (unfold G; lia). rewrite rne_0. reflexivity.
Qed.

Lemma digits_mul m1 m2 :
  Z.pos (digits2_pos m1) + Z.pos (digits2_pos m2) - 1 <= Z.pos (digits2_pos (m1 * m2))
  <= Z.pos (digits2_pos m1) + Z.pos (digits2_pos m2).
Proof.
  pose proof (has_digits_pos m1) as (P1 & L1 & U1).
  pose proof (has_digits_pos m2) as (P2 & L2 & U2).
  pose proof (has_digits_pos (m1 * m2)) as HD.
  set (d1 := Z.pos (digits2_pos m1)) in *. set (d2 := Z.pos (digits2_pos m2)) in *.
  rewrite Pos2Z.inj_mul in HD.
  pose proof (pow2_pos (d1 - 1) ltac:(lia)). pose proof (pow2_pos (d2 - 1) ltac:(lia)).
  split.
  - assert (2 ^ (d1 - 1 + (d2 - 1)) <= Z.pos m1 * Z.pos m2).
    { rewrite <- pow2_add by lia. nia. }
    pose proof (digits_ge_of_le _ _ _ HD H1 ltac:(lia)). lia.
  - assert (Z.pos m1 * Z.pos m2 < 2 ^ (d1 + d2)).
    { rewrite <- pow2_add by lia. nia. }
    apply (digits_le_of_lt _ _ _ HD H1). lia.
Qed.

Lemma SFmul_val mx ex my ey :
  bounded 53 1024 mx ex = true -> bounded 53 1024 my ey = true -> ex + ey <= 900 ->
  let R := SFmul 53 1024 (S754_finite false mx ex) (S754_finite false my ey) in
  valid_binary 53 1024 R = true /\ nonneg_fin R = true /\
  val R = V (Z.pos mx * Z.pos my * 2 ^ (ex + ey - G)).
Proof.
  intros Bx By Hov R. unfold R. cbn [SFmul xorb].
  destruct (bounded_facts _ _ Bx) as (Rx & Dx & Nx & _).
  destruct (bounded_facts _ _ By) as (Ry & Dy & Ny & _).
  pose proof (digits_mul mx my) as Hd.
  rewrite <- Pos2Z.inj_mul.
  apply bra_val.
  - rewrite fexp_eq. lia.
  - unfold G. lia.
  - lia.
Qed.

Lemma SFadd_val mx ex my ey :
  bounded 53 1024 mx ex = true -> bounded 53 1024 my ey = true ->
  ex <= 900 -> ey <= 900 ->
  let R := SFadd 53 1024 (S754_finite false mx ex) (S754_finite false my ey) in
  valid_binary 53 1024 R = true /\ nonneg_fin R = true /\
  val R = V (Z.pos mx * 2 ^ (ex - G) + Z.pos my * 2 ^ (ey - G)).
Proof.
  intros Bx By Hx Hy R. unfold R. cbn [SFadd cond_Zopp].
  destruct (bounded_facts _ _ Bx) as (Rx & Dx & _ & _).
  destruct (bounded_facts _ _ By) as (Ry & Dy & _ & _).
  set (ez := Z.min ex ey).
  pose proof (shl_align_spec mx ex ez) as Sx.
  pose proof (shl_align_spec my ey ez) as Sy.
  destruct (shl_align mx ex ez) as [ax ex']. destruct (shl_align my ey ez) as [ay ey'].
  cbn [fst]. destruct Sx as (Ex & Ax). destruct Sy as (Ey & Ay).
  replace ex' with ez in Ax by (unfold ez in *; lia).
  replace ey' with ez in Ay by (unfold ez in *; lia).
  cbn [Z.add binary_normalize].
  assert (HX : Z.pos (ax + ay) * 2 ^ (ez - G)
               = Z.pos mx * 2 ^ (ex - G) + Z.pos my * 2 ^ (ey - G)).
  { rewrite Pos2Z.inj_add, Ax, Ay. rewrite Z.mul_add_distr_r.
    rewrite <- !Z.mul_assoc. rewrite !pow2_add by (unfold ez, G in *; lia).
    f_equal; f_equal; f_equal; lia. }
  rewrite <- HX. apply binary_round_val.
  - unfold ez, G. lia.
  - pose proof (has_digits_pos (ax + ay)) as HD.
    pose proof (has_digits_pos mx) as (_ & _ & Ux).
    pose proof (has_digits_pos my) as (_ & _ & Uy).
    assert (2 ^ Z.pos (digits2_pos mx) <= 2 ^ 53) by (apply pow2_le_mono; lia).
    assert (2 ^ Z.pos (digits2_pos my) <= 2 ^ 53) by (apply pow2_le_mono; lia).
    set (em := Z.max ex ey).
    assert (Z.pos (ax + ay) < 2 ^ (54 + em - ez)).
    { rewrite Pos2Z.inj_add, Ax, Ay.
      replace (54 + em - ez) with (1 + (53 + (em - ez))) by lia.
      rewrite <- !pow2_add by (unfold em, ez; lia). change (2 ^ 1) with 2.
      assert (2 ^ (ex - ez) <= 2 ^ (em - ez)) by (apply pow2_le_mono; unfold em, ez; lia).
      assert (2 ^ (ey - ez) <= 2 ^ (em - ez)) by (apply pow2_le_mono; unfold em, ez; lia).
      pose proof (pow2_pos (ex - ez) ltac:(unfold ez; lia)).
      pose proof (pow2_pos (ey - ez) ltac:(unfold ez; lia)).
      pose proof (pow2_pos (em - ez) ltac:(unfold em, ez; lia)).
      nia. }
    pose proof (digits_le_of_lt _ _ _ HD H1 ltac:(unfold em, ez; lia)).
    unfold em, ez in *. lia.
Qed.

(** *** Draws, and the two operations of [mockPrediction] *)

Lemma unit_draw_cases r :
  unit_draw r = true ->
  r = S754_zero false \/
  exists m e, r = S754_finite false m e /\ bounded 53 1024 m e = true /\ e <= -53.
Proof.
  unfold unit_draw. intros H. apply andb_true_iff in H. destruct H as [Hv H].
  destruct r as [[|]|?| |[|] m e]; try discriminate H.
  - left; reflexivity.
  - right. exists m, e. split; [reflexivity|].
    change (bounded 53 1024 m e = true) in Hv. split; [assumption|].
    destruct (bounded_facts _ _ Hv) as (R & D & N & _).
    unfold ltb, SFltb, one in H. cbn [SFcompare] in H.
    destruct (Z.compare_spec e (-52)) as [E|E|E]; [|lia|discriminate].
    exfalso. subst e.
    destruct (Pos.compare_cont Eq m 4503599627370496) eqn:C; try discriminate H.
    assert (Hm : (m < 4503599627370496)%positive) by (apply Pos.compare_lt_iff; exact C).
    pose proof (has_digits_pos m) as (_ & L & _).
    assert (N' : Z.pos (digits2_pos m) = 53) by (apply N; reflexivity).
    rewrite N' in L. change (2 ^ (53 - 1)) with 4503599627370496 in L.
    apply Pos2Z.pos_lt_pos in Hm. apply Z.lt_nge in Hm. apply Hm. exact L.
Qed.

Lemma val_le_below_one m e :
  bounded 53 1024 m e = true -> e <= -53 ->
  val (S754_finite false m e) <= val below_one.
Proof.
  intros B He. destruct (bounded_facts _ _ B) as (R & D & _ & _).
  unfold below_one. rewrite !val_finite.
  change (Z.pos (2 ^ 53 - 1)) with (2 ^ 53 - 1).
  pose proof (has_digits_pos m) as (_ & _ & U).
  assert (2 ^ Z.pos (digits2_pos m) <= 2 ^ 53) by (apply pow2_le_mono; lia).
  assert (2 ^ (e - G) <= 2 ^ (-53 - G)) by (apply pow2_le_mono; unfold G; lia).
  pose proof (pow2_pos (e - G) ltac:(unfold G; lia)).
  apply Z.mul_le_mono_nonneg; lia.
Qed.

(** Multiplying by a positive constant whose exponent is not positive is
    monotone. *)
Lemma mul_mono mx ex mx' ex' mc ec :
  bounded 53 1024 mx ex = true -> bounded 53 1024 mx' ex' = true ->
  bounded 53 1024 mc ec = true -> ec <= 0 -> ex <= 900 -> ex' <= 900 ->
  val (S754_finite false mx ex) <= val (S754_finite false mx' ex') ->
  val (mul (S754_finite false mx ex) (S754_finite false mc ec))
  <= val (mul (S754_finite false mx' ex') (S754_finite false mc ec)).
Proof.
  intros B B' Bc Hc Hx Hx' Hle.
  destruct (bounded_facts _ _ B) as (R & _). destruct (bounded_facts _ _ B') as (R' & _).
  destruct (bounded_facts _ _ Bc) as (Rc & _).
  destruct (SFmul_val mx ex mc ec B Bc ltac:(lia)) as (_ & _ & E).
  destruct (SFmul_val mx' ex' mc ec B' Bc ltac:(lia)) as (_ & _ & E').
  unfold mul, prec, emax. rewrite E, E'.
  rewrite !val_finite in Hle.
  pose proof (pow2_pos (ex + ec - G) ltac:(unfold G; lia)) as Pa.
  pose proof (pow2_pos (ex' + ec - G) ltac:(unfold G; lia)) as Pa'.
  pose proof (pow2_pos (- ec) ltac:(lia)) as Ps.
  replace (ex - G) with ((ex + ec - G) + (- ec)) in Hle by lia.
  replace (ex' - G) with ((ex' + ec - G) + (- ec)) in Hle by lia.
  rewrite <- !pow2_add in Hle by (unfold G; lia).
  set (a := 2 ^ (ex + ec - G)) in *. set (a' := 2 ^ (ex' + ec - G)) in *.
  set (s := 2 ^ (- ec)) in *.
  assert (Z.pos mx * a <= Z.pos mx' * a') by nia.
  apply V_mono; nia.
Qed.

(** Adding to a positive constant is monotone, and does not go below the
    constant. *)
Lemma add_mono mc ec mt et mt' et' :
  bounded 53 1024 mc ec = true -> bounded 53 1024 mt et = true ->
  bounded 53 1024 mt' et' = true -> ec <= 900 -> et <= 900 -> et' <= 900 ->
  val (S754_finite false mt et) <= val (S754_finite false mt' et') ->
  val (S754_finite false mc ec) <= val (add (S754_finite false mc ec) (S754_finite false mt et))
  /\ val (add (S754_finite false mc ec) (S754_finite false mt et))
     <= val (add (S754_finite false mc ec) (S754_finite false mt' et')).
Proof.
  intros Bc Bt Bt' Hc Ht Ht' Hle.
  destruct (bounded_facts _ _ Bc) as (Rc & _). destruct (bounded_facts _ _ Bt) as (Rt & _).
  destruct (bounded_facts _ _ Bt') as (Rt' & _).
  destruct (SFadd_val mc ec mt et Bc Bt Hc Ht) as (_ & _ & E).
  destruct (SFadd_val mc ec mt' et' Bc Bt' Hc Ht') as (_ & _ & E').
  unfold add, prec, emax. rewrite E, E'. rewrite !val_finite in *.
  pose proof (pow2_pos (ec - G) ltac:(unfold G; lia)).
  pose proof (pow2_pos (et - G) ltac:(unfold G; lia)).
  pose proof (pow2_pos (et' - G) ltac:(unfold G; lia)).
  split.
  - rewrite <- (V_val mc ec Bc) at 1. apply V_mono; nia.
  - apply V_mono; nia.
Qed.


Lemma floor_index y :
  valid_binary 53 1024 y = true -> nonneg_fin y = true ->
  val y < 10 * 2 ^ (- G) ->
  exists n, (n < 10)%nat /\ to_index (Math_floor y) = Some n.
Proof.
  intros Vy Ny Hlt. destruct y as [[|]|?| |[|] m e]; try discriminate.
  - exists 0%nat. split; [lia | reflexivity].
  - cbn [valid_binary] in Vy. destruct (bounded_facts _ _ Vy) as (R & D & N & _).
    rewrite val_finite in Hlt.
    pose proof (has_digits_pos m) as (_ & L & _).
    pose proof (pow2_pos (- G) ltac:(unfold G; lia)) as PG.
    assert (He : e < 0).
    { destruct (Z_lt_le_dec e 0) as [?|Hc]; [assumption|exfalso].
      rewrite (N ltac:(lia)) in L.
      assert (2 ^ (- G) <= 2 ^ (e - G)) by (apply pow2_le_mono; unfold G; lia).
      assert (10 <= 2 ^ (53 - 1)) by (vm_compute; discriminate).
      nia. }
    pose proof (pow2_pos (- e) ltac:(lia)) as Pe.
    pose proof (pow2_pos (e - G) ltac:(unfold G; lia)) as Pa.
    assert (Hs : 2 ^ (- G) = 2 ^ (e - G) * 2 ^ (- e)).
    { rewrite pow2_add by (unfold G; lia). f_equal. lia. }
    assert (Hq : 0 <= Z.pos m / 2 ^ (- e) < 10).
    { split.
      - apply Z.div_pos; lia.
      - apply Z.div_lt_upper_bound; [lia|]. rewrite Hs in Hlt. nia. }
    unfold Math_floor. replace (0 <=? e) with false by (symmetry; apply Z.leb_gt; lia).
    cbv zeta. set (q := Z.pos m / 2 ^ (- e)) in *. clearbody q.
    exists (Z.to_nat q). split; [lia|].
    assert (C : q = 0 \/ q = 1 \/ q = 2 \/ q = 3 \/ q = 4 \/ q = 5 \/ q = 6 \/
                q = 7 \/ q = 8 \/ q = 9) by lia.
    repeat (destruct C as [C|C]; [subst q; reflexivity|]). subst q; reflexivity.
Qed.

Lemma classNames_get i n :
  to_index i = Some n -> (n < 10)%nat ->
  exists c, array_get classNames i = VStr c /\ In c classNames.
Proof.
  intros Hi Hn. unfold array_get. rewrite Hi.
  do 10 (destruct n as [|n]; [eexists; split; [reflexivity | cbn; tauto] |]).
  lia.
Qed.

(** The class picked from a draw is one of the ten names. *)
Lemma class_of_draw r :
  unit_draw r = true ->
  exists c,
    array_get classNames
      (Math_floor (mul r (of_int (Z.of_nat (List.length classNames))))) = VStr c
    /\ In c classNames.
Proof.
  intros Hr.
  change (of_int (Z.of_nat (List.length classNames)))
    with (S754_finite false 5629499534213120 (-49)).
  destruct (unit_draw_cases r Hr) as [-> | (m & e & -> & B & He)].
  - eexists. split; [reflexivity | cbn; tauto].
  - assert (Bc : bounded 53 1024 5629499534213120 (-49) = true) by reflexivity.
    destruct (SFmul_val m e _ _ B Bc ltac:(lia)) as (Vy & Ny & _).
    assert (Bb : bounded 53 1024 (2 ^ 53 - 1) (-53) = true) by reflexivity.
    pose proof (mul_mono m e _ _ _ _ B Bb Bc ltac:(lia) ltac:(lia) ltac:(lia)
                  (val_le_below_one m e B He)) as Hle.
    fold below_one in Hle.
    assert (Hlt : val (mul below_one (S754_finite false 5629499534213120 (-49)))
                  < 10 * 2 ^ (- G)) by (vm_compute; reflexivity).
    destruct (floor_index _ Vy Ny ltac:(unfold mul, prec, emax in *; lia)) as (n & Hn & Hi).
    exact (classNames_get _ n Hi Hn).
Qed.

(** The confidence computed from a draw lies in [[0.7, 1)]. *)
Lemma confidence_of_draw r :
  unit_draw r = true ->
  let c := add lit_0_7 (mul r lit_0_3) in
  leb lit_0_7 c = true /\ ltb c one = true.
Proof.
  intros Hr c. unfold c.
  destruct (unit_draw_cases r Hr) as [-> | (m & e & -> & B & He)].
  - split; reflexivity.
  - unfold lit_0_3, lit_0_7.
    assert (B3 : bounded 53 1024 5404319552844595 (-54) = true) by reflexivity.
    assert (B7 : bounded 53 1024 6305039478318694 (-53) = true) by reflexivity.
    assert (Bb : bounded 53 1024 (2 ^ 53 - 1) (-53) = true) by reflexivity.
    assert (BT : bounded 53 1024 5404319552844594 (-54) = true) by reflexivity.
    destruct (SFmul_val m e _ _ B B3 ltac:(lia)) as (Vt & Nt & _).
    pose proof (mul_mono m e _ _ _ _ B Bb B3 ltac:(lia) ltac:(lia) ltac:(lia)
                  (val_le_below_one m e B He)) as Hle.
    change (mul (S754_finite false (2 ^ 53 - 1) (-53))
              (S754_finite false 5404319552844595 (-54)))
      with (S754_finite false 5404319552844594 (-54)) in Hle.
    change (SFmul 53 1024 (S754_finite false m e) (S754_finite false 5404319552844595 (-54)))
      with (mul (S754_finite false m e) (S754_finite false 5404319552844595 (-54))) in Vt, Nt.
    destruct (mul (S754_finite false m e) (S754_finite false 5404319552844595 (-54)))
      as [[|]|?| |[|] mt et]; try discriminate Nt.
    + split; reflexivity.
    + cbn [valid_binary] in Vt.
      assert (Het : et <= -54).
      { destruct (Z_lt_le_dec (-54) et) as [Hc|?]; [exfalso|lia].
        pose proof (val_lt_of_exp _ _ _ _ BT Vt Hc) as Hc'.
        rewrite !val_finite in Hle. lia. }
      destruct (add_mono _ _ _ _ _ _ B7 Vt BT ltac:(lia) ltac:(lia) ltac:(lia) Hle)
        as (Hlo & Hhi).
      destruct (SFadd_val _ _ _ _ B7 Vt ltac:(lia) ltac:(lia)) as (Vc & Nc & _).
      change (SFadd 53 1024) with add in Vc, Nc.
      change (add (S754_finite false 6305039478318694 (-53))
                (S754_finite false 5404319552844594 (-54)))
        with below_one in Hhi.
      set (cf := add (S754_finite false 6305039478318694 (-53))
                   (S754_finite false mt et)) in *.
      split.
      * apply SFleb_val; try assumption; reflexivity.
      * apply SFltb_val; try assumption; try reflexivity.
        assert (val below_one < val one).
        { apply SFltb_val; reflexivity. }
        lia.
Qed.

(** The bounds on the draws cannot be relaxed: at [r = 1] the confidence
    would be [1], and the largest draw gives the last index and the
    largest double below [1]. *)
Example confidence_at_one : add lit_0_7 (mul one lit_0_3) = one.
Proof. reflexivity. Qed.

Example confidence_at_largest_draw : add lit_0_7 (mul below_one lit_0_3) = below_one.
Proof. reflexivity. Qed.

Example index_at_largest_draw :
  to_index (Math_floor (mul below_one (of_int 10))) = Some 9%nat.
Proof. reflexivity. Qed.

Example fround_half : fround lit_0_5 = lit_0_5.
Proof. reflexivity. Qed.

End RoundingFacts.

Import RoundingFacts.

(* ================================================================= *)
(** * The mock prediction and the mock preprocessing *)

(** The two draws a run of [mockPrediction] started in [w] consumes. *)
Lemma mockPrediction_eq buf w :
  let r1 := rand_tape w (rand_pos w) in
  let r2 := rand_tape w (S (rand_pos w)) in
  mockPrediction buf w =
    (Ok (VObj [ ("predicted_class",
                 array_get classNames
                   (Math_floor (mul r1 (of_int (Z.of_nat (List.length classNames))))));
                ("confidence", VNum (add lit_0_7 (mul r2 lit_0_3))) ]),
     mkWorld (rand_tape w) (S (S (rand_pos w)))
       (((trace w ++ [EvPredict]) ++ [EvRandom r1]) ++ [EvRandom r2])).
Proof. reflexivity. Qed.

Lemma preprocessImage_eq buf w :
  preprocessImage buf w =
    (Ok (Float32Array_fill lit_0_5 (Float32Array_new 784)),
     mkWorld (rand_tape w) (rand_pos w) (trace w ++ [EvPreprocess])).
Proof. reflexivity. Qed.

Lemma array_get_not_array arr i elems : array_get arr i <> VArr elems.
Proof.
  unfold array_get. destruct (to_index i) as [n|]; [|discriminate].
  destruct (nth_error arr n); discriminate.
Qed.

Lemma ltb_leb x y : ltb x y = true -> leb x y = true.
Proof.
  unfold ltb, leb, SFltb, SFleb. destruct (SFcompare x y) as [[| |]|]; intros; congruence.
Qed.

Lemma leb_zero_of_leb_0_7 c : leb lit_0_7 c = true -> leb zero c = true.
Proof.
  destruct c as [[|]|[|]| |[|] m e]; intros H; try discriminate H; reflexivity.
Qed.

(* ================================================================= *)
(** * The handler, branch by branch *)

Lemma handler_options req w :
  method req = "OPTIONS" ->
  handler req w = (Ok (mkResponse 200 corsHeaders BodyNull), w).
Proof. intros H. unfold handler. rewrite H. reflexivity. Qed.

Lemma handler_other_method req w :
  method req <> "OPTIONS" -> method req <> "POST" ->
  handler req w = (Ok (json_response 405 (error_body "Method not allowed")), w).
Proof.
  intros H1 H2. unfold handler, try_catch, handler_try.
  apply String.eqb_neq in H1, H2. rewrite H1, H2. reflexivity.
Qed.

Lemma handler_post_rejected req w e :
  method req = "POST" -> req_body req = Throw e ->
  handler req w =
    (Ok (internal_error e), log w [EvFormData; EvConsoleError e]).
Proof.
  intros H1 H2. unfold handler, try_catch, handler_try, bind, formData.
  rewrite H1, H2. cbn. unfold log. rewrite <- app_assoc. reflexivity.
Qed.

Lemma handler_post_missing req w fd :
  method req = "POST" -> req_body req = Ok fd ->
  falsy (obj_get "image" fd) = true ->
  handler req w =
    (Ok (json_response 400 (error_body "No image file provided")), log w [EvFormData]).
Proof.
  intros H1 H2 H3. unfold handler, try_catch, handler_try, bind, formData.
  rewrite H1, H2. cbn. rewrite H3. reflexivity.
Qed.

Lemma handler_post_text req w fd s :
  method req = "POST" -> req_body req = Ok fd ->
  obj_get "image" fd = Some (EntryText s) -> s <> "" ->
  handler req w =
    (Ok (internal_error
           (JsError "Cannot read properties of undefined (reading 'startsWith')")),
     log w [ EvFormData;
             EvConsoleError
               (JsError "Cannot read properties of undefined (reading 'startsWith')") ]).
Proof.
  intros H1 H2 H3 H4. unfold handler, try_catch, handler_try, bind, formData.
  rewrite H1, H2. cbn. rewrite H3. cbn.
  apply String.eqb_neq in H4. rewrite H4. cbn.
  unfold log. rewrite <- app_assoc. reflexivity.
Qed.

Lemma handler_post_bad_type req w fd f :
  method req = "POST" -> req_body req = Ok fd ->
  obj_get "image" fd = Some (EntryFile f) ->
  String.prefix "image/" (file_type f) = false ->
  handler req w =
    (Ok (json_response 400 (error_body "Invalid file type. Please upload an image.")),
     log w [EvFormData]).
Proof.
  intros H1 H2 H3 H4. unfold handler, try_catch, handler_try, bind, formData.
  rewrite H1, H2. cbn. rewrite H3. cbn. rewrite H4. reflexivity.
Qed.

Lemma handler_post_image req w fd f :
  method req = "POST" -> req_body req = Ok fd ->
  obj_get "image" fd = Some (EntryFile f) ->
  String.prefix "image/" (file_type f) = true ->
  let r1 := rand_tape w (rand_pos w) in
  let r2 := rand_tape w (S (rand_pos w)) in
  handler req w =
    (Ok (json_response 200 (prediction_of r1 r2)),
     mkWorld (rand_tape w) (S (S (rand_pos w)))
       (trace w ++
          [ EvFormData; EvArrayBuffer; EvPreprocess; EvPredict;
            EvRandom r1; EvRandom r2;
            EvConsoleLog (get_prop "predicted_class" (prediction_of r1 r2))
              (mul (to_number (get_prop "confidence" (prediction_of r1 r2))) lit_100) ])).
Proof.
  intros H1 H2 H3 H4 r1 r2.
  unfold handler, try_catch, handler_try, bind, formData.
  rewrite H1, H2. cbn. rewrite H3. cbn. rewrite H4.
  cbn -[mul add Math_floor array_get lit_0_7 lit_0_3 lit_100 of_int classNames
        Float32Array_fill Float32Array_new].
  fold r1 r2. rewrite <- !app_assoc. reflexivity.
Qed.

Lemma handler_response req w :
  fst (handler req w) =
    Ok (response_of req (rand_tape w (rand_pos w)) (rand_tape w (S (rand_pos w)))).
Proof.
  unfold response_of.
  destruct (String.eqb_spec (method req) "OPTIONS") as [HO|HO].
  { rewrite (handler_options req w HO). reflexivity. }
  destruct (String.eqb_spec (method req) "POST") as [HP|HP]; cbn [negb].
  2:{ rewrite (handler_other_method req w HO HP). reflexivity. }
  destruct (req_body req) as [fd|e] eqn:HB.
  2:{ rewrite (handler_post_rejected req w e HP HB). reflexivity. }
  destruct (obj_get "image" fd) as [[s|f]|] eqn:HI.
  - destruct (String.eqb_spec s "") as [Hs|Hs].
    + rewrite (handler_post_missing req w fd HP HB); [reflexivity|].
      rewrite HI. cbn. subst s. reflexivity.
    + rewrite (handler_post_text req w fd s HP HB HI Hs). reflexivity.
  - destruct (String.prefix "image/" (file_type f)) eqn:Hpre.
    + rewrite (handler_post_image req w fd f HP HB HI Hpre). reflexivity.
    + rewrite (handler_post_bad_type req w fd f HP HB HI Hpre). reflexivity.
  - rewrite (handler_post_missing req w fd HP HB); [reflexivity|].
    rewrite HI. reflexivity.
Qed.

Lemma prediction_no_array r1 r2 k ps : get_prop k (prediction_of r1 r2) <> VArr ps.
Proof.
  unfold prediction_of, get_prop. cbn [obj_get].
  destruct (String.eqb k "predicted_class").
  - apply array_get_not_array.
  - destruct (String.eqb k "confidence"); discriminate.
Qed.

(* ================================================================= *)
(** * The claims *)

(** C1 (as amended).  [mockPrediction] is a function of the random
    source alone: two runs return the identical predicted class and
    confidence whenever [Math.random] gives the same two draws in both,
    whatever the image bytes and whatever else the worlds hold. *)
Theorem mockPrediction_function_of_draws buf1 buf2 w1 w2 :
  rand_tape w1 (rand_pos w1) = rand_tape w2 (rand_pos w2) ->
  rand_tape w1 (S (rand_pos w1)) = rand_tape w2 (S (rand_pos w2)) ->
  fst (mockPrediction buf1 w1) = fst (mockPrediction buf2 w2).
Proof.
  intros H1 H2. rewrite !mockPrediction_eq. cbn [fst]. rewrite H1, H2. reflexivity.
Qed.

Lemma mockPrediction_function_of_draws_witness :
  let w2 := mkWorld (fun n => sample_tape (n - 7)) 7 [EvFormData] in
  rand_tape sample_world (rand_pos sample_world) = rand_tape w2 (rand_pos w2) /\
  rand_tape sample_world (S (rand_pos sample_world)) = rand_tape w2 (S (rand_pos w2)) /\
  fst (mockPrediction truncated_png sample_world) = fst (mockPrediction [] w2).
Proof.
  intros w2. split; [reflexivity|]. split; [reflexivity|].
  apply (mockPrediction_function_of_draws truncated_png [] sample_world w2);
    reflexivity.
Defined.

(** C1, as stated, fails: on the same image bytes, a second run that
    follows a first one returns another class and another confidence. *)
Lemma mockPrediction_not_deterministic :
  exists c1 c2,
    fst (mockPrediction truncated_png sample_world)
      = Ok (VObj [("predicted_class", VStr "T-shirt/top"); ("confidence", VNum c1)]) /\
    fst (mockPrediction truncated_png (snd (mockPrediction truncated_png sample_world)))
      = Ok (VObj [("predicted_class", VStr "Sandal"); ("confidence", VNum c2)]) /\
    c1 <> c2.
Proof.
  eexists. eexists. split; [vm_compute; reflexivity|].
  split; [vm_compute; reflexivity|]. discriminate.
Qed.

(** C2 (as amended).  The handler decodes nothing and its preprocessing
    cannot fail, so there is no decode failure to surface: a POSTed file
    whose declared type starts with [image/] gets status 200 and a mock
    prediction whatever its bytes.  The failures that do occur while a
    POST is handled -- [req.formData()] rejecting, an [image] entry that
    is not a file -- are surfaced as a 500 response carrying the error's
    message, and no prediction is drawn. *)
Theorem handler_failures_surface req w :
  method req = "POST" ->
  (forall e, req_body req = Throw e ->
     handler req w = (Ok (internal_error e), log w [EvFormData; EvConsoleError e])) /\
  (forall fd s, req_body req = Ok fd ->
     obj_get "image" fd = Some (EntryText s) -> s <> "" ->
     exists e, handler req w = (Ok (internal_error e), log w [EvFormData; EvConsoleError e])) /\
  (forall fd f, req_body req = Ok fd ->
     obj_get "image" fd = Some (EntryFile f) ->
     String.prefix "image/" (file_type f) = true ->
     fst (handler req w) =
       Ok (json_response 200
             (prediction_of (rand_tape w (rand_pos w)) (rand_tape w (S (rand_pos w)))))) /\
  (forall buf w0, exists fv w1, preprocessImage buf w0 = (Ok fv, w1)).
Proof.
  intros HP. repeat split.
  - intros e HB. apply handler_post_rejected; assumption.
  - intros fd s HB HI Hs. eexists. apply (handler_post_text req w fd s); assumption.
  - intros fd f HB HI Hpre. rewrite (handler_post_image req w fd f HP HB HI Hpre).
    reflexivity.
  - intros buf w0. eexists. eexists. apply preprocessImage_eq.
Qed.

Lemma handler_failures_surface_witness :
  method rejected_upload = "POST" /\
  handler rejected_upload sample_world =
    (Ok (internal_error (JsError "Body can not be decoded as form data")),
     log sample_world
       [EvFormData; EvConsoleError (JsError "Body can not be decoded as form data")]).
Proof.
  split; [reflexivity|].
  apply (proj1 (handler_failures_surface rejected_upload sample_world eq_refl)).
  reflexivity.
Defined.

(** C2, as stated, fails: bytes with a PNG header and a truncated body
    are answered with status 200 and a label, not with an error. *)
Lemma truncated_png_gets_prediction :
  exists conf,
    fst (handler png_upload sample_world) =
      Ok (mkResponse 200 jsonHeaders
            (BodyJson (VObj [ ("predicted_class", VStr "T-shirt/top");
                              ("confidence", VNum conf) ]))).
Proof. eexists. vm_compute. reflexivity. Qed.

(** C3.  For every image buffer, when the two draws are numbers
    [Math.random] can return, [mockPrediction] returns one of the ten
    class names and a confidence [c] with [0.7 <= c < 1], hence with
    [0 <= c <= 1]. *)
Theorem mockPrediction_class_and_confidence buf w :
  unit_draw (rand_tape w (rand_pos w)) = true ->
  unit_draw (rand_tape w (S (rand_pos w))) = true ->
  exists cls conf w',
    mockPrediction buf w =
      (Ok (VObj [("predicted_class", VStr cls); ("confidence", VNum conf)]), w') /\
    In cls classNames /\
    leb lit_0_7 conf = true /\ ltb conf one = true /\
    leb zero conf = true /\ leb conf one = true.
Proof.
  intros H1 H2. rewrite mockPrediction_eq. cbv zeta.
  destruct (class_of_draw _ H1) as (cls & Hc & Hin).
  destruct (confidence_of_draw _ H2) as (Hlo & Hhi).
  rewrite Hc. eexists. eexists. eexists. split; [reflexivity|].
  split; [assumption|]. split; [assumption|]. split; [assumption|].
  split; [apply leb_zero_of_leb_0_7; assumption | apply ltb_leb; assumption].
Qed.

Lemma mockPrediction_class_and_confidence_witness :
  unit_draw (rand_tape sample_world (rand_pos sample_world)) = true /\
  unit_draw (rand_tape sample_world (S (rand_pos sample_world))) = true /\
  exists cls conf w',
    mockPrediction truncated_png sample_world =
      (Ok (VObj [("predicted_class", VStr cls); ("confidence", VNum conf)]), w') /\
    In cls classNames /\
    leb lit_0_7 conf = true /\ ltb conf one = true /\
    leb zero conf = true /\ leb conf one = true.
Proof.
  split; [reflexivity|]. split; [reflexivity|].
  apply (mockPrediction_class_and_confidence truncated_png sample_world); reflexivity.
Defined.

(** C4.  For every image buffer, [preprocessImage] returns a vector of
    exactly 784 numbers, each in the closed interval [[0, 1]]. *)
Theorem preprocessImage_length_and_range buf w :
  exists fv w',
    preprocessImage buf w = (Ok fv, w') /\
    List.length fv = 784%nat /\
    Forall (fun x => leb zero x = true /\ leb x one = true) fv.
Proof.
  eexists. eexists. split; [apply preprocessImage_eq|]. split.
  - unfold Float32Array_fill, Float32Array_new.
    rewrite length_map, repeat_length. reflexivity.
  - unfold Float32Array_fill. apply Forall_forall. intros x Hx.
    apply in_map_iff in Hx. destruct Hx as (y & <- & _). split; reflexivity.
Qed.

(** C5.  Preprocessing has no hidden input: run on the same buffer from
    any two worlds -- in particular twice in a row -- it returns the same
    feature vector, bit for bit. *)
Theorem preprocessImage_deterministic buf w1 w2 :
  exists fv,
    fst (preprocessImage buf w1) = Ok fv /\
    fst (preprocessImage buf w2) = Ok fv /\
    fst (preprocessImage buf (snd (preprocessImage buf w1))) = Ok fv.
Proof.
  rewrite !preprocessImage_eq. cbn [fst]. eexists. repeat split.
Qed.

(** C6 (as amended).  For every image buffer, [mockPrediction] returns an
    object with exactly the two properties [predicted_class] and
    [confidence] and no per-class probabilities: no property of it holds
    an array.  The class is [classNames[floor(r1 * 10)]] for the first
    draw [r1]; the confidence is [0.7 + r2 * 0.3] for the second draw
    [r2], chosen without regard to the class. *)
Theorem mockPrediction_result_shape buf w :
  let r1 := rand_tape w (rand_pos w) in
  let r2 := rand_tape w (S (rand_pos w)) in
  exists w',
    mockPrediction buf w =
      (Ok (VObj [ ("predicted_class",
                   array_get classNames (Math_floor (mul r1 (of_int 10))));
                  ("confidence", VNum (add lit_0_7 (mul r2 lit_0_3))) ]), w') /\
    forall k probs, get_prop k (returned (fst (mockPrediction buf w))) <> VArr probs.
Proof.
  intros r1 r2. rewrite mockPrediction_eq. eexists. split; [reflexivity|].
  intros k probs. cbn [fst returned]. apply (prediction_no_array r1 r2).
Qed.

(** C6, as stated, fails: what [mockPrediction] returns holds no
    per-class probabilities at all, under any property name. *)
Lemma mockPrediction_no_probabilities :
  ~ exists k probs,
      get_prop k (returned (fst (mockPrediction truncated_png sample_world)))
      = VArr probs.
Proof.
  intros (k & probs & H). rewrite mockPrediction_eq in H. cbn [fst returned] in H.
  exact (prediction_no_array _ _ k probs H).
Qed.

(** C7.  When the uploaded file's declared content type does not start
    with [image/], the handler answers with a 400-level status (400 and
    the invalid-file-type message on a POST) and has by then neither read
    the file's bytes nor entered [preprocessImage] or [mockPrediction],
    nor drawn a random number. *)
Theorem non_image_type_rejected req w fd f :
  method req <> "OPTIONS" ->
  req_body req = Ok fd ->
  obj_get "image" fd = Some (EntryFile f) ->
  String.prefix "image/" (file_type f) = false ->
  exists resp w' evs,
    handler req w = (Ok resp, w') /\
    400 <= status resp < 500 /\
    (method req = "POST" ->
     status resp = 400 /\
     body resp = BodyJson (error_body "Invalid file type. Please upload an image.")) /\
    rand_pos w' = rand_pos w /\
    trace w' = (trace w ++ evs)%list /\
    ~ In EvArrayBuffer evs /\ ~ In EvPreprocess evs /\ ~ In EvPredict evs /\
    (forall r, ~ In (EvRandom r) evs).
Proof.
  intros HO HB HI Hpre.
  destruct (String.eqb_spec (method req) "POST") as [HP|HP].
  - rewrite (handler_post_bad_type req w fd f HP HB HI Hpre).
    eexists. eexists. exists [EvFormData]. split; [reflexivity|].
    cbn. repeat split; try lia; try (intros [H|[]]; discriminate H).
    intros r [H|[]]; discriminate H.
  - rewrite (handler_other_method req w HO HP).
    eexists. eexists. exists []. split; [reflexivity|].
    cbn. rewrite app_nil_r. repeat split; try lia; try contradiction; auto.
Qed.

Lemma non_image_type_rejected_witness :
  method text_upload <> "OPTIONS" /\
  exists resp w' evs,
    handler text_upload sample_world = (Ok resp, w') /\
    400 <= status resp < 500 /\
    (method text_upload = "POST" ->
     status resp = 400 /\
     body resp = BodyJson (error_body "Invalid file type. Please upload an image.")) /\
    rand_pos w' = rand_pos sample_world /\
    trace w' = (trace sample_world ++ evs)%list /\
    ~ In EvArrayBuffer evs /\ ~ In EvPreprocess evs /\ ~ In EvPredict evs /\
    (forall r, ~ In (EvRandom r) evs).
Proof.
  split; [discriminate|].
  apply (non_image_type_rejected text_upload sample_world
           [("image", EntryFile (mkFile "notes.txt" "text/plain" [x68; x69]))]
           (mkFile "notes.txt" "text/plain" [x68; x69]));
    [discriminate | reflexivity | reflexivity | reflexivity].
Defined.

(** C8 (as amended).  The handler keeps no state of its own; what one
    call leaves to the next is the position of [Math.random]'s generator.
    For identical requests, two calls for which the generator gives the
    same next two draws return identical responses, whatever calls
    preceded each of them. *)
Theorem handler_response_function_of_draws req w1 w2 :
  rand_tape w1 (rand_pos w1) = rand_tape w2 (rand_pos w2) ->
  rand_tape w1 (S (rand_pos w1)) = rand_tape w2 (S (rand_pos w2)) ->
  fst (handler req w1) = fst (handler req w2).
Proof.
  intros H1 H2. rewrite !handler_response. rewrite H1, H2. reflexivity.
Qed.

Lemma handler_response_function_of_draws_witness :
  let w2 := mkWorld (fun n => sample_tape (n - 7)) 7 [EvFormData] in
  rand_tape sample_world (rand_pos sample_world) = rand_tape w2 (rand_pos w2) /\
  rand_tape sample_world (S (rand_pos sample_world)) = rand_tape w2 (S (rand_pos w2)) /\
  fst (handler png_upload sample_world) = fst (handler png_upload w2).
Proof.
  intros w2. split; [reflexivity|]. split; [reflexivity|].
  apply (handler_response_function_of_draws png_upload sample_world w2); reflexivity.
Defined.

(** C8, as stated, fails: the same request, served a second time right
    after a first time, gets a different response. *)
Lemma handler_depends_on_prior_calls :
  fst (handler png_upload (snd (handler png_upload sample_world)))
  <> fst (handler png_upload sample_world).
Proof. vm_compute. discriminate. Qed.

(** C9.  Every call of the handler returns a response -- it never throws
    -- and the response carries the three CORS headers. *)
Theorem handler_cors_headers req w :
  exists resp w',
    handler req w = (Ok resp, w') /\
    obj_get "Access-Control-Allow-Origin" (headers resp) = Some "*" /\
    obj_get "Access-Control-Allow-Methods" (headers resp)
      = Some "GET, POST, PUT, DELETE, OPTIONS" /\
    obj_get "Access-Control-Allow-Headers" (headers resp)
      = Some "Content-Type, Authorization".
Proof.
  pose proof (handler_response req w) as H.
  destruct (handler req w) as [[resp|e] w'] eqn:E; cbn [fst] in H; [|discriminate H].
  exists resp, w'. split; [reflexivity|].
  injection H as ->. unfold response_of.
  destruct (String.eqb (method req) "OPTIONS"); [repeat split|].
  destruct (negb (String.eqb (method req) "POST")); [repeat split|].
  destruct (req_body req) as [fd|e]; [|repeat split].
  destruct (obj_get "image" fd) as [[s|f]|]; [| |repeat split].
  - destruct (String.eqb s ""); repeat split.
  - destruct (String.prefix "image/" (file_type f)); repeat split.
Qed.

(** C10.  A request whose method is neither OPTIONS nor POST is answered
    with status 405 and the JSON body [{error: Method not allowed}], the
    world left as it was (the body is not read); an OPTIONS request is
    answered with status 200 and a null body. *)
Theorem handler_method_dispatch req w :
  (method req <> "OPTIONS" -> method req <> "POST" ->
   exists resp,
     handler req w = (Ok resp, w) /\
     status resp = 405 /\
     body resp = BodyJson (VObj [("error", VStr "Method not allowed")])) /\
  (method req = "OPTIONS" ->
   exists resp,
     handler req w = (Ok resp, w) /\ status resp = 200 /\ body resp = BodyNull).
Proof.
  split.
  - intros HO HP. rewrite (handler_other_method req w HO HP).
    eexists. split; [reflexivity|]. split; reflexivity.
  - intros HO. rewrite (handler_options req w HO).
    eexists. split; [reflexivity|]. split; reflexivity.
Qed.

Lemma handler_method_dispatch_witness :
  (exists resp,
     handler get_request sample_world = (Ok resp, sample_world) /\
     status resp = 405 /\
     body resp = BodyJson (VObj [("error", VStr "Method not allowed")])) /\
  (exists resp,
     handler options_request sample_world = (Ok resp, sample_world) /\
     status resp = 200 /\ body resp = BodyNull).
Proof.
  split.
  - apply (proj1 (handler_method_dispatch get_request sample_world)); discriminate.
  - apply (proj2 (handler_method_dispatch options_request sample_world)); reflexivity.
Defined.

(* ================================================================= *)
(** * More about the edge function *)

(** X1.  A POST whose form data has no [image] entry, or has the empty
    string there, is answered with status 400 and the message
    [No image file provided]; the form data was read and nothing else
    happened. *)
Theorem post_without_image_rejected req w fd :
  method req = "POST" -> req_body req = Ok fd ->
  obj_get "image" fd = None \/ obj_get "image" fd = Some (EntryText "") ->
  exists resp w',
    handler req w = (Ok resp, w') /\
    status resp = 400 /\
    body resp = BodyJson (VObj [("error", VStr "No image file provided")]) /\
    rand_pos w' = rand_pos w /\
    trace w' = (trace w ++ [EvFormData])%list.
Proof.
  intros HP HB HI.
  rewrite (handler_post_missing req w fd HP HB).
  - eexists. eexists. split; [reflexivity|]. repeat split.
  - destruct HI as [-> | ->]; reflexivity.
Qed.

Lemma post_without_image_rejected_witness :
  let req := mkRequest "POST" (Ok [("file", EntryFile (mkFile "a.png" "image/png" []))]) in
  method req = "POST" /\
  exists resp w',
    handler req sample_world = (Ok resp, w') /\
    status resp = 400 /\
    body resp = BodyJson (VObj [("error", VStr "No image file provided")]) /\
    rand_pos w' = rand_pos sample_world /\
    trace w' = (trace sample_world ++ [EvFormData])%list.
Proof.
  intros req. split; [reflexivity|].
  apply (post_without_image_rejected req sample_world
           [("file", EntryFile (mkFile "a.png" "image/png" []))]);
    [reflexivity | reflexivity | left; reflexivity].
Defined.

(** X2.  The handler looks at nothing of an uploaded file but whether its
    declared type starts with [image/]: two requests with the same
    method whose [image] files agree on that test get the same response
    and leave the same world, whatever the files' bytes, names and the
    other form fields. *)
Theorem handler_ignores_file_content req1 req2 w fd1 fd2 f1 f2 :
  method req1 = method req2 ->
  req_body req1 = Ok fd1 -> req_body req2 = Ok fd2 ->
  obj_get "image" fd1 = Some (EntryFile f1) ->
  obj_get "image" fd2 = Some (EntryFile f2) ->
  String.prefix "image/" (file_type f1) = String.prefix "image/" (file_type f2) ->
  handler req1 w = handler req2 w.
Proof.
  intros Hm HB1 HB2 HI1 HI2 Hpre.
  destruct (String.eqb_spec (method req1) "OPTIONS") as [HO|HO].
  { rewrite (handler_options req1 w HO).
    rewrite (handler_options req2 w); [reflexivity | congruence]. }
  destruct (String.eqb_spec (method req1) "POST") as [HP|HP].
  2:{ rewrite (handler_other_method req1 w HO HP).
      rewrite (handler_other_method req2 w); [reflexivity | congruence | congruence]. }
  assert (HP2 : method req2 = "POST") by congruence.
  destruct (String.prefix "image/" (file_type f1)) eqn:E1.
  - rewrite (handler_post_image req1 w fd1 f1 HP HB1 HI1 E1).
    rewrite (handler_post_image req2 w fd2 f2 HP2 HB2 HI2 (eq_sym Hpre)).
    reflexivity.
  - rewrite (handler_post_bad_type req1 w fd1 f1 HP HB1 HI1 E1).
    rewrite (handler_post_bad_type req2 w fd2 f2 HP2 HB2 HI2 (eq_sym Hpre)).
    reflexivity.
Qed.

Lemma handler_ignores_file_content_witness :
  let req2 :=
    mkRequest "POST"
      (Ok [ ("note", EntryText "hello");
            ("image", EntryFile (mkFile "cat.gif" "image/gif" [x47; x49; x46])) ]) in
  method png_upload = method req2 /\
  handler png_upload sample_world = handler req2 sample_world.
Proof.
  intros req2. split; [reflexivity|].
  apply (handler_ignores_file_content png_upload req2 sample_world
           [("image", EntryFile (mkFile "shirt.png" "image/png" truncated_png))]
           [ ("note", EntryText "hello");
             ("image", EntryFile (mkFile "cat.gif" "image/gif" [x47; x49; x46])) ]
           (mkFile "shirt.png" "image/png" truncated_png)
           (mkFile "cat.gif" "image/gif" [x47; x49; x46]));
    reflexivity.
Defined.

(** X3.  The handler never throws, never rewinds or replaces the random
    source and never erases the trace: it only appends events.  It
    consumes exactly two draws when it answers with a prediction (status
    200 and a body), and none in every other case. *)
Theorem handler_draw_accounting req w :
  exists resp w' evs,
    handler req w = (Ok resp, w') /\
    rand_tape w' = rand_tape w /\
    trace w' = (trace w ++ evs)%list /\
    (status resp = 200 /\ body resp <> BodyNull -> rand_pos w' = S (S (rand_pos w))) /\
    (status resp <> 200 \/ body resp = BodyNull -> rand_pos w' = rand_pos w).
Proof.
  destruct (String.eqb_spec (method req) "OPTIONS") as [HO|HO].
  { rewrite (handler_options req w HO). eexists. eexists. exists [].
    split; [reflexivity|]. rewrite app_nil_r. cbn.
    repeat split; try reflexivity; intros H; tauto. }
  destruct (String.eqb_spec (method req) "POST") as [HP|HP].
  2:{ rewrite (handler_other_method req w HO HP). eexists. eexists. exists [].
      split; [reflexivity|]. rewrite app_nil_r. cbn.
      repeat split; try reflexivity. intros [H _]; discriminate H. }
  destruct (req_body req) as [fd|e] eqn:HB.
  2:{ rewrite (handler_post_rejected req w e HP HB). eexists. eexists. eexists.
      split; [reflexivity|]. cbn.
      repeat split; try reflexivity. intros [H _]; discriminate H. }
  destruct (obj_get "image" fd) as [[s|f]|] eqn:HI.
  - destruct (String.eqb_spec s "") as [Hs|Hs].
    + rewrite (handler_post_missing req w fd HP HB) by (rewrite HI, Hs; reflexivity).
      eexists. eexists. eexists. split; [reflexivity|]. cbn.
      repeat split; try reflexivity. intros [H _]; discriminate H.
    + rewrite (handler_post_text req w fd s HP HB HI Hs).
      eexists. eexists. eexists. split; [reflexivity|]. cbn.
      repeat split; try reflexivity. intros [H _]; discriminate H.
  - destruct (String.prefix "image/" (file_type f)) eqn:Hpre.
    + rewrite (handler_post_image req w fd f HP HB HI Hpre).
      eexists. eexists. eexists. split; [reflexivity|].
      cbn [rand_tape rand_pos trace status body json_response JSON_stringify].
      repeat split; try reflexivity.
      intros [H|H]; [exfalso; apply H; reflexivity | discriminate H].
    + rewrite (handler_post_bad_type req w fd f HP HB HI Hpre).
      eexists. eexists. eexists. split; [reflexivity|]. cbn.
      repeat split; try reflexivity. intros [H _]; discriminate H.
  - rewrite (handler_post_missing req w fd HP HB) by (rewrite HI; reflexivity).
    eexists. eexists. eexists. split; [reflexivity|]. cbn.
    repeat split; try reflexivity. intros [H _]; discriminate H.
Qed.

(** X4.  What a client can rely on: the status is 200, 400, 405 or 500;
    the only response without a body is the one to OPTIONS; every other
    response is declared [application/json], and its body carries an
    [error] string exactly when the status is not 200. *)
Theorem handler_status_and_body req w :
  exists resp w',
    handler req w = (Ok resp, w') /\
    (status resp = 200 \/ status resp = 400 \/ status resp = 405 \/ status resp = 500) /\
    match body resp with
    | BodyNull => method req = "OPTIONS" /\ status resp = 200
    | BodyJson v =>
        method req <> "OPTIONS" /\
        obj_get "Content-Type" (headers resp) = Some "application/json" /\
        (status resp = 200 -> get_prop "error" v = VUndefined) /\
        (status resp <> 200 -> exists msg, get_prop "error" v = VStr msg)
    end.
Proof.
  pose proof (handler_response req w) as H.
  destruct (handler req w) as [[resp|e] w'] eqn:E; cbn [fst] in H; [|discriminate H].
  exists resp, w'. split; [reflexivity|].
  injection H as ->. unfold response_of.
  destruct (String.eqb_spec (method req) "OPTIONS") as [HO|HO].
  { cbn. tauto. }
  destruct (negb (String.eqb (method req) "POST")).
  { cbn. repeat split; try tauto; try discriminate. intros _. eexists; reflexivity. }
  destruct (req_body req) as [fd|e].
  2:{ cbn. repeat split; try tauto; try discriminate. intros _. eexists; reflexivity. }
  destruct (obj_get "image" fd) as [[s|f]|].
  - destruct (String.eqb s "");
      (cbn; repeat split; try tauto; try discriminate; intros _; eexists; reflexivity).
  - destruct (String.prefix "image/" (file_type f)).
    + unfold json_response, JSON_stringify, prediction_of.
      cbn [status body headers]. split; [tauto|].
      cbn [json_of].
      destruct (array_get classNames _) eqn:A;
        (cbn; repeat split; try tauto; intros H; exfalso; apply H; reflexivity).
    + cbn. repeat split; try tauto; try discriminate. intros _. eexists; reflexivity.
  - cbn. repeat split; try tauto; try discriminate. intros _. eexists; reflexivity.
Qed.

(* ================================================================= *)
(** * The class and the confidence as functions of the draw *)

Module DrawFacts.

Lemma val_nonneg x : 0 <= val x.
Proof.
  destruct x as [?|?| |[|] m e]; cbn [val]; lia.
Qed.

Lemma unit_draw_valid r :
  unit_draw r = true -> valid_binary 53 1024 r = true /\ nonneg_fin r = true.
Proof.
  intros H. destruct (unit_draw_cases r H) as [-> | (m & e & -> & B & _)].
  - split; reflexivity.
  - split; [exact B | reflexivity].
Qed.


(** The product of a draw with a positive constant of non-positive
    exponent: a valid non-negative number, monotone in the draw. *)
Lemma mul_draw_val r mc ec :
  unit_draw r = true -> bounded 53 1024 mc ec = true -> ec <= 0 ->
  let y := mul r (S754_finite false mc ec) in
  valid_binary 53 1024 y = true /\ nonneg_fin y = true /\
  val y <= val (mul below_one (S754_finite false mc ec)).
Proof.
  intros Hr Bc Hc y. unfold y.
  destruct (unit_draw_cases r Hr) as [-> | (m & e & -> & B & He)].
  - split; [reflexivity|]. split; [reflexivity|]. apply val_nonneg.
  - destruct (bounded_facts _ _ Bc) as (Rc & _).
    destruct (SFmul_val m e mc ec B Bc ltac:(lia)) as (Vy & Ny & _).
    split; [exact Vy|]. split; [exact Ny|].
    assert (Bb : bounded 53 1024 (2 ^ 53 - 1) (-53) = true) by reflexivity.
    exact (mul_mono m e _ _ mc ec B Bb Bc Hc ltac:(lia) ltac:(lia)
             (val_le_below_one m e B He)).
Qed.

Lemma mul_draw_mono r r' mc ec :
  unit_draw r = true -> unit_draw r' = true ->
  bounded 53 1024 mc ec = true -> ec <= 0 ->
  val r <= val r' ->
  val (mul r (S754_finite false mc ec)) <= val (mul r' (S754_finite false mc ec)).
Proof.
  intros Hr Hr' Bc Hc Hle.
  destruct (unit_draw_cases r Hr) as [-> | (m & e & -> & B & He)].
  - apply val_nonneg.
  - destruct (unit_draw_cases r' Hr') as [-> | (m' & e' & -> & B' & He')].
    + exfalso. rewrite val_finite in Hle. cbn [val] in Hle.
      pose proof (pow2_pos (e - G) ltac:(unfold G; destruct (bounded_facts _ _ B); lia)).
      lia.
    + apply mul_mono; try assumption; lia.
Qed.

(** Adding a small non-negative number to [0.7]. *)
Lemma add_0_7_val t :
  valid_binary 53 1024 t = true -> nonneg_fin t = true ->
  val t <= val (S754_finite false 5404319552844594 (-54)) ->
  let c := add lit_0_7 t in
  valid_binary 53 1024 c = true /\ nonneg_fin c = true /\
  val c = V (val lit_0_7 + val t).
Proof.
  intros Vt Nt Hle c. unfold c, lit_0_7.
  assert (B7 : bounded 53 1024 6305039478318694 (-53) = true) by reflexivity.
  assert (BT : bounded 53 1024 5404319552844594 (-54) = true) by reflexivity.
  destruct t as [[|]|?| |[|] mt et]; try discriminate Nt.
  - split; [reflexivity|]. split; [reflexivity|].
    change (add (S754_finite false 6305039478318694 (-53)) (S754_zero false))
      with (S754_finite false 6305039478318694 (-53)).
    cbn [val]. rewrite Z.add_0_r. symmetry. apply V_val. exact B7.
  - cbn [valid_binary] in Vt.
    assert (Het : et <= -54).
    { destruct (Z_lt_le_dec (-54) et) as [Hc|?]; [exfalso|lia].
      pose proof (val_lt_of_exp _ _ _ _ BT Vt Hc) as Hc'.
      rewrite !val_finite in Hle. lia. }
    exact (SFadd_val _ _ _ _ B7 Vt ltac:(lia) ltac:(lia)).
Qed.

(** The confidence computed from a draw, as a value. *)
Lemma confidence_val r :
  unit_draw r = true ->
  let c := add lit_0_7 (mul r lit_0_3) in
  valid_binary 53 1024 c = true /\ nonneg_fin c = true /\
  val c = V (val lit_0_7 + val (mul r lit_0_3)) /\
  val lit_0_7 <= val c <= val below_one.
Proof.
  intros Hr c. unfold c.
  assert (B3 : bounded 53 1024 5404319552844595 (-54) = true) by reflexivity.
  destruct (mul_draw_val r _ _ Hr B3 ltac:(lia)) as (Vt & Nt & Ht).
  fold lit_0_3 in Vt, Nt, Ht.
  change (mul below_one lit_0_3) with (S754_finite false 5404319552844594 (-54)) in Ht.
  destruct (add_0_7_val _ Vt Nt Ht) as (Vc & Nc & Ec).
  split; [exact Vc|]. split; [exact Nc|]. split; [exact Ec|].
  rewrite Ec.
  assert (P7 : 0 < val lit_0_7) by (vm_compute; reflexivity).
  pose proof (val_nonneg (mul r lit_0_3)) as P.
  split.
  - assert (E7 : V (val lit_0_7) = val lit_0_7) by (apply V_val; reflexivity).
    rewrite <- E7 at 1. apply V_mono; lia.
  - assert (VT : valid_binary 53 1024 (S754_finite false 5404319552844594 (-54)) = true)
      by reflexivity.
    destruct (add_0_7_val _ VT eq_refl (Z.le_refl _)) as (_ & _ & ET).
    change (add lit_0_7 (S754_finite false 5404319552844594 (-54)))
      with below_one in ET.
    rewrite ET. apply V_mono; lia.
Qed.


(** The floor of a number below [10], as a quotient of its value. *)
Lemma floor_index_val y :
  valid_binary 53 1024 y = true -> nonneg_fin y = true ->
  val y < 10 * 2 ^ (- G) ->
  to_index (Math_floor y) = Some (Z.to_nat (val y / 2 ^ (- G))) /\
  0 <= val y / 2 ^ (- G) < 10.
Proof.
  intros Vy Ny Hlt.
  pose proof (pow2_pos (- G) ltac:(unfold G; lia)) as PG.
  assert (Hq : 0 <= val y / 2 ^ (- G) < 10).
  { split.
    - apply Z.div_pos; [apply val_nonneg | lia].
    - apply Z.div_lt_upper_bound; lia. }
  split; [|exact Hq].
  destruct y as [[|]|?| |[|] m e]; try discriminate.
  - reflexivity.
  - cbn [valid_binary] in Vy. destruct (bounded_facts _ _ Vy) as (R & D & N & _).
    rewrite val_finite in *.
    pose proof (has_digits_pos m) as (_ & L & _).
    assert (He : e < 0).
    { destruct (Z_lt_le_dec e 0) as [?|Hc]; [assumption|exfalso].
      rewrite (N ltac:(lia)) in L.
      assert (2 ^ (- G) <= 2 ^ (e - G)) by (apply pow2_le_mono; unfold G; lia).
      assert (10 <= 2 ^ (53 - 1)) by (vm_compute; discriminate).
      nia. }
    pose proof (pow2_pos (- e) ltac:(lia)) as Pe.
    pose proof (pow2_pos (e - G) ltac:(unfold G; lia)) as Pa.
    assert (Hs : 2 ^ (- G) = 2 ^ (- e) * 2 ^ (e - G)).
    { rewrite pow2_add by (unfold G; lia). f_equal. lia. }
    assert (Ediv : Z.pos m * 2 ^ (e - G) / 2 ^ (- G) = Z.pos m / 2 ^ (- e)).
    { rewrite Hs. apply Z.div_mul_cancel_r; lia. }
    rewrite Ediv in Hq |- *. clear Ediv Hs Hlt.
    unfold Math_floor. replace (0 <=? e) with false by (symmetry; apply Z.leb_gt; lia).
    cbv zeta. set (q := Z.pos m / 2 ^ (- e)) in *. clearbody q.
    assert (C : q = 0 \/ q = 1 \/ q = 2 \/ q = 3 \/ q = 4 \/ q = 5 \/ q = 6 \/
                q = 7 \/ q = 8 \/ q = 9) by lia.
    repeat (destruct C as [C|C]; [subst q; reflexivity|]). subst q; reflexivity.
Qed.

End DrawFacts.

Import DrawFacts.

(** X5.  A POST that carries a file whose declared type starts with
    [image/] is answered, when the two draws are numbers [Math.random]
    can return, with status 200 and the JSON object
    [{predicted_class, confidence}]: the class is one of the ten names
    (the property is never dropped as [undefined]) and
    [0.7 <= confidence < 1]. *)
Theorem handler_success_response req w fd f :
  method req = "POST" -> req_body req = Ok fd ->
  obj_get "image" fd = Some (EntryFile f) ->
  String.prefix "image/" (file_type f) = true ->
  unit_draw (rand_tape w (rand_pos w)) = true ->
  unit_draw (rand_tape w (S (rand_pos w))) = true ->
  exists cls conf,
    fst (handler req w) =
      Ok (mkResponse 200 jsonHeaders
            (BodyJson (VObj [("predicted_class", VStr cls); ("confidence", VNum conf)]))) /\
    In cls classNames /\ leb lit_0_7 conf = true /\ ltb conf one = true.
Proof.
  intros HP HB HI Hpre H1 H2.
  rewrite (handler_post_image req w fd f HP HB HI Hpre). cbn [fst].
  destruct (class_of_draw _ H1) as (cls & Hc & Hin).
  destruct (confidence_of_draw _ H2) as (Hlo & Hhi).
  exists cls. eexists. split; [|split; [exact Hin | split; [exact Hlo | exact Hhi]]].
  unfold json_response, JSON_stringify, prediction_of. rewrite Hc. reflexivity.
Qed.

Lemma handler_success_response_witness :
  method png_upload = "POST" /\
  exists cls conf,
    fst (handler png_upload sample_world) =
      Ok (mkResponse 200 jsonHeaders
            (BodyJson (VObj [("predicted_class", VStr cls); ("confidence", VNum conf)]))) /\
    In cls classNames /\ leb lit_0_7 conf = true /\ ltb conf one = true.
Proof.
  split; [reflexivity|].
  apply (handler_success_response png_upload sample_world
           [("image", EntryFile (mkFile "shirt.png" "image/png" truncated_png))]
           (mkFile "shirt.png" "image/png" truncated_png));
    reflexivity.
Defined.



(** X7.  The confidence is a monotone function of the second draw: a
    larger draw never gives a smaller confidence. *)
Theorem confidence_monotone r r' :
  unit_draw r = true -> unit_draw r' = true -> leb r r' = true ->
  leb (add lit_0_7 (mul r lit_0_3)) (add lit_0_7 (mul r' lit_0_3)) = true.
Proof.
  intros Hr Hr' Hle.
  destruct (unit_draw_valid r Hr) as (Vr & Nr).
  destruct (unit_draw_valid r' Hr') as (Vr' & Nr').
  apply (SFleb_val r r' Vr Vr' Nr Nr') in Hle.
  assert (B3 : bounded 53 1024 5404319552844595 (-54) = true) by reflexivity.
  pose proof (mul_draw_mono r r' _ _ Hr Hr' B3 ltac:(lia) Hle) as Ht.
  fold lit_0_3 in Ht.
  destruct (confidence_val r Hr) as (Vc & Nc & Ec & _).
  destruct (confidence_val r' Hr') as (Vc' & Nc' & Ec' & _).
  apply SFleb_val; try assumption.
  rewrite Ec, Ec'.
  assert (P7 : 0 < val lit_0_7) by (vm_compute; reflexivity).
  pose proof (val_nonneg (mul r lit_0_3)).
  apply V_mono; lia.
Qed.

Lemma confidence_monotone_witness :
  unit_draw zero = true /\ unit_draw lit_0_5 = true /\ leb zero lit_0_5 = true /\
  leb (add lit_0_7 (mul zero lit_0_3)) (add lit_0_7 (mul lit_0_5 lit_0_3)) = true.
Proof.
  split; [reflexivity|]. split; [reflexivity|]. split; [reflexivity|].
  apply (confidence_monotone zero lit_0_5); reflexivity.
Defined.

(** X8.  Every draw gives an index into [classNames], and the index is a
    monotone function of the draw: a larger draw never gives an earlier
    class. *)
Theorem class_index_monotone r r' :
  unit_draw r = true -> unit_draw r' = true -> leb r r' = true ->
  exists n n',
    class_index r = Some n /\ class_index r' = Some n' /\
    (n <= n')%nat /\ (n' < List.length classNames)%nat.
Proof.
  intros Hr Hr' Hle.
  destruct (unit_draw_valid r Hr) as (Vr & Nr).
  destruct (unit_draw_valid r' Hr') as (Vr' & Nr').
  apply (SFleb_val r r' Vr Vr' Nr Nr') in Hle.
  unfold class_index.
  change (of_int (Z.of_nat (List.length classNames)))
    with (S754_finite false 5629499534213120 (-49)).
  assert (Bc : bounded 53 1024 5629499534213120 (-49) = true) by reflexivity.
  destruct (mul_draw_val r _ _ Hr Bc ltac:(lia)) as (Vy & Ny & Hy).
  destruct (mul_draw_val r' _ _ Hr' Bc ltac:(lia)) as (Vy' & Ny' & Hy').
  pose proof (mul_draw_mono r r' _ _ Hr Hr' Bc ltac:(lia) Hle) as Hm.
  assert (Hlt : val (mul below_one (S754_finite false 5629499534213120 (-49)))
                < 10 * 2 ^ (- G)) by (vm_compute; reflexivity).
  destruct (floor_index_val _ Vy Ny ltac:(lia)) as (E & Q).
  destruct (floor_index_val _ Vy' Ny' ltac:(lia)) as (E' & Q').
  eexists. eexists. split; [exact E|]. split; [exact E'|].
  pose proof (pow2_pos (- G) ltac:(unfold G; lia)) as PG.
  pose proof (Z.div_le_mono _ _ (2 ^ (- G)) PG Hm) as Hd.
  change (List.length classNames) with 10%nat.
  split; lia.
Qed.

Lemma class_index_monotone_witness :
  unit_draw zero = true /\ unit_draw lit_0_5 = true /\ leb zero lit_0_5 = true /\
  exists n n',
    class_index zero = Some n /\ class_index lit_0_5 = Some n' /\
    (n <= n')%nat /\ (n' < List.length classNames)%nat.
Proof.
  split; [reflexivity|]. split; [reflexivity|]. split; [reflexivity|].
  apply (class_index_monotone zero lit_0_5); reflexivity.
Defined.

(** X9.  No class is out of reach: for each of the ten names there is a
    draw for which [mockPrediction] returns it. *)
Theorem every_class_reachable cls :
  In cls classNames ->
  exists r,
    unit_draw r = true /\
    array_get classNames
      (Math_floor (mul r (of_int (Z.of_nat (List.length classNames))))) = VStr cls.
Proof.
  intros H. cbn in H.
  repeat (destruct H as [<- | H]);
    [ exists (div (of_int 1) (of_int 20))
    | exists (div (of_int 3) (of_int 20))
    | exists (div (of_int 5) (of_int 20))
    | exists (div (of_int 7) (of_int 20))
    | exists (div (of_int 9) (of_int 20))
    | exists (div (of_int 11) (of_int 20))
    | exists (div (of_int 13) (of_int 20))
    | exists (div (of_int 15) (of_int 20))
    | exists (div (of_int 17) (of_int 20))
    | exists (div (of_int 19) (of_int 20))
    | contradiction ];
    split; vm_compute; reflexivity.
Qed.

Lemma every_class_reachable_witness :
  In "Ankle boot" classNames /\
  exists r,
    unit_draw r = true /\
    array_get classNames
      (Math_floor (mul r (of_int (Z.of_nat (List.length classNames))))) = VStr "Ankle boot".
Proof.
  split; [cbn; tauto|].
  apply (every_class_reachable "Ankle boot"). cbn. tauto.
Defined.

(* ================================================================= *)
(** * The upload page *)

Module AppFacts.

Import App.

(** A property that holds of the initial page and is kept by every
    event holds of every reachable page. *)
Lemma run_preserves (P : Page -> Prop) :
  (forall ev p, P p -> P (step ev p)) ->
  forall evs p, P p -> P (run evs p).
Proof.
  intros Hstep evs. induction evs as [|ev evs IH]; intros p Hp.
  - exact Hp.
  - cbn [run fold_left]. apply IH. apply Hstep. exact Hp.
Qed.

Lemma reachable_ind (P : Page -> Prop) :
  P initial ->
  (forall ev p, P p -> P (step ev p)) ->
  forall p, reachable p -> P p.
Proof.
  intros H0 Hstep p (evs & ->). apply run_preserves; assumption.
Qed.



Lemma in_flight_step ev p : in_flight_inv p -> in_flight_inv (step ev p).
Proof.
  unfold in_flight_inv. intros H.
  destruct p as [[sel url pred ld err] rds rqs]. cbn [ui requests loading] in H.
  destruct ev as [files| |files| |n result|n outcome]; cbn [step].
  - destruct files as [|file rest]; [exact H|]. cbn [handleDrop].
    destruct (String.prefix "image/" (file_type file)); exact H.
  - exact H.
  - destruct files as [[|file rest]|]; exact H.
  - unfold button_disabled. cbn [ui selectedFile loading].
    destruct sel as [file|]; cbn [orb]; [|exact H].
    destruct ld; [exact H|].
    unfold handleSubmit_begin. cbn [ui selectedFile requests loading setError setLoading].
    rewrite length_app, H. reflexivity.
  - cbn [reads]. destruct (nth_error rds n); exact H.
  - cbn [requests]. destruct (nth_error rqs n) as [file|] eqn:E; [|exact H].
    cbn [ui requests].
    assert (loading (handleSubmit_settle outcome (mkState sel url pred ld err)) = false)
      as -> by (unfold handleSubmit_settle; reflexivity).
    destruct ld.
    + destruct rqs as [|r0 [|r1 rqs]]; try discriminate H.
      destruct n as [|n]; [reflexivity|]. destruct n; discriminate E.
    + destruct rqs; [destruct n; discriminate E | discriminate H].
Qed.

Lemma error_step ev p : error_inv p -> error_inv (step ev p).
Proof.
  unfold error_inv. intros H.
  destruct p as [[sel url pred ld err] rds rqs]. cbn [ui error] in H.
  destruct ev as [files| |files| |n result|n outcome]; cbn [step].
  - destruct files as [|file rest]; [exact H|]. cbn [handleDrop].
    destruct (String.prefix "image/" (file_type file)); cbn; tauto.
  - exact H.
  - destruct files as [[|file rest]|]; try exact H. cbn. tauto.
  - unfold button_disabled. cbn [ui selectedFile loading].
    destruct sel as [file|]; cbn [orb]; [|exact H].
    destruct ld; [exact H|]. cbn. tauto.
  - cbn [reads]. destruct (nth_error rds n); exact H.
  - cbn [requests]. destruct (nth_error rqs n); [|exact H].
    destruct outcome as [e|[|] [v|e]]; cbn; tauto.
Qed.

Lemma blank_step ev p : blank_inv p -> blank_inv (step ev p).
Proof.
  unfold blank_inv. intros H.
  destruct p as [[sel url pred ld err] rds rqs].
  cbn [ui selectedFile previewUrl prediction loading reads requests] in H.
  destruct ev as [files| |files| |n result|n outcome]; cbn [step].
  - destruct files as [|file rest]; [exact H|]. cbn [handleDrop].
    destruct (String.prefix "image/" (file_type file)); cbn; [discriminate | exact H].
  - exact H.
  - destruct files as [[|file rest]|]; try exact H. cbn. discriminate.
  - unfold button_disabled. cbn [ui selectedFile loading].
    destruct sel as [file|]; cbn [orb]; [|exact H].
    destruct ld; [exact H|]. cbn. discriminate.
  - cbn [reads]. destruct (nth_error rds n) eqn:E; [|exact H].
    cbn. intros ->. destruct (H eq_refl) as (_ & _ & _ & -> & _).
    destruct n; discriminate E.
  - cbn [requests]. destruct (nth_error rqs n) eqn:E; [|exact H].
    cbn. intros Hs.
    assert (Hsel : sel = None).
    { destruct outcome as [e|[|] [v|e]]; exact Hs. }
    destruct (H Hsel) as (_ & _ & _ & _ & ->).
    destruct n; discriminate E.
Qed.

Lemma selected_step ev p :
  selectedFile (ui p) <> None -> selectedFile (ui (step ev p)) <> None.
Proof.
  intros H. destruct p as [[sel url pred ld err] rds rqs]. cbn [ui selectedFile] in H.
  destruct ev as [files| |files| |n result|n outcome]; cbn [step].
  - destruct files as [|file rest]; [exact H|]. cbn [handleDrop].
    destruct (String.prefix "image/" (file_type file)); cbn; [discriminate | exact H].
  - exact H.
  - destruct files as [[|file rest]|]; try exact H. cbn. discriminate.
  - unfold button_disabled. cbn [ui selectedFile loading].
    destruct sel as [file|]; cbn [orb]; [|exact H].
    destruct ld; [exact H|]. cbn. discriminate.
  - cbn [reads]. destruct (nth_error rds n); exact H.
  - cbn [requests]. destruct (nth_error rqs n); [|exact H].
    destruct outcome as [e|[|] [v|e]]; exact H.
Qed.


End AppFacts.

Import App AppFacts.



(** X11.  The only messages the page ever shows are the one for a dropped
    file that is not an image and the one for a failed classification:
    the guard of [handleSubmit] for a missing file is never taken,
    because the button that calls it is disabled until a file is
    selected. *)
Theorem error_messages_shown p :
  reachable p ->
  (error (ui p) = "" \/
   error (ui p) = "Please select an image file" \/
   error (ui p) = "Failed to classify image. Please try again.") /\
  error (ui p) <> "Please select an image first".
Proof.
  intros Hr.
  assert (H : error_inv p).
  { apply (reachable_ind error_inv); [left; reflexivity | apply error_step | exact Hr]. }
  split; [exact H|].
  destruct H as [-> | [-> | ->]]; discriminate.
Qed.

Lemma error_messages_shown_witness :
  let p := run [Click; Drop [mkFile "notes.txt" "text/plain" [x68; x69]]; Click] initial in
  reachable p /\
  (error (ui p) = "" \/
   error (ui p) = "Please select an image file" \/
   error (ui p) = "Failed to classify image. Please try again.") /\
  error (ui p) <> "Please select an image first".
Proof.
  intros p.
  assert (Hr : reachable p) by (eexists; reflexivity).
  split; [exact Hr|]. apply (error_messages_shown p Hr).
Defined.

(** X12.  As long as no file has been selected, the page shows no
    preview and no result, is not loading, and has no read and no
    request pending. *)
Theorem nothing_before_first_file p :
  reachable p -> selectedFile (ui p) = None ->
  previewUrl (ui p) = "" /\ prediction (ui p) = None /\ loading (ui p) = false /\
  reads p = [] /\ requests p = [].
Proof.
  intros Hr.
  apply (reachable_ind blank_inv); [intros _; repeat split | apply blank_step | exact Hr].
Qed.

Lemma nothing_before_first_file_witness :
  let p := run [Drop [mkFile "notes.txt" "text/plain" [x68; x69]]; Click;
                ReaderLoad 0 "data:"; Settle 0 (Rejected (JsError "offline"))] initial in
  reachable p /\ selectedFile (ui p) = None /\
  previewUrl (ui p) = "" /\ prediction (ui p) = None /\ loading (ui p) = false /\
  reads p = [] /\ requests p = [].
Proof.
  intros p.
  assert (Hr : reachable p) by (eexists; reflexivity).
  split; [exact Hr|]. split; [reflexivity|].
  apply (nothing_before_first_file p Hr). reflexivity.
Defined.

(** X13.  No event unselects: once a file is selected, a file stays
    selected whatever happens next. *)
Theorem selection_is_never_cleared evs p :
  selectedFile (ui p) <> None -> selectedFile (ui (run evs p)) <> None.
Proof.
  apply (run_preserves (fun q => selectedFile (ui q) <> None)).
  intros ev q. apply selected_step.
Qed.

Lemma selection_is_never_cleared_witness :
  let p := handleFileSelect (mkFile "shirt.png" "image/png" truncated_png) initial in
  selectedFile (ui p) <> None /\
  selectedFile
    (ui (run [Drop []; Drop [mkFile "notes.txt" "text/plain" []]; FileInput None;
              Click; Settle 0 (Resolved false (Throw (JsError "bad")))] p)) <> None.
Proof.
  intros p. split; [discriminate|].
  apply (selection_is_never_cleared _ p). discriminate.
Defined.






(** X17.  A response is shown whatever happened while it was awaited: if
    another file is selected after the click and before the request
    settles, the result of the request made for the first file is shown
    under the second. *)
Theorem late_response_shown_under_new_file fileA fileB rest p result :
  reachable p ->
  selectedFile (ui p) = Some fileA -> loading (ui p) = false ->
  let p' := run [ Click; FileInput (Some (fileB :: rest));
                  Settle 0 (Resolved true (Ok result)) ] p in
  selectedFile (ui p') = Some fileB /\
  prediction (ui p') = Some result /\
  loading (ui p') = false /\ requests p' = [].
Proof.
  intros Hr Hs Hl.
  assert (H : in_flight_inv p).
  { apply (reachable_ind in_flight_inv); [reflexivity | apply in_flight_step | exact Hr]. }
  unfold in_flight_inv in H. rewrite Hl in H.
  destruct p as [[sel url pred ld err] rds rqs].
  cbn [ui selectedFile loading requests] in *. subst sel ld.
  destruct rqs; [|discriminate H].
  cbn. repeat split.
Qed.

Lemma late_response_shown_under_new_file_witness :
  let fileA := mkFile "shirt.png" "image/png" truncated_png in
  let fileB := mkFile "cat.gif" "image/gif" [x47; x49; x46] in
  let p := run [Drop [fileA]] initial in
  let p' := run [ Click; FileInput (Some [fileB]);
                  Settle 0 (Resolved true (Ok (VStr "Bag"))) ] p in
  reachable p /\ selectedFile (ui p) = Some fileA /\
  selectedFile (ui p') = Some fileB /\
  prediction (ui p') = Some (VStr "Bag") /\
  loading (ui p') = false /\ requests p' = [].
Proof.
  intros fileA fileB p p'.
  assert (Hr : reachable p) by (eexists; reflexivity).
  split; [exact Hr|]. split; [reflexivity|].
  apply (late_response_shown_under_new_file fileA fileB [] p (VStr "Bag") Hr);
    reflexivity.
Defined.
